(** * The first-candle scanner: candle transform, signal evaluator, scans

    A shallow embedding of [src/scanner.py] (classes [HeikinAshiCalculator]
    and [IBKRScanner]) together with the properties that its specification
    states about it.

    Prices are Python floats.  The embedding is parametric in the number
    type: the class [Number] collects the operations the scanner uses, and it
    is instantiated with IEEE binary64 (what CPython computes with) and with
    the rationals (exact arithmetic).

    A raised exception is [None] in the option monad; [_scan_stock] turns it
    into its own [None], as its [except] clause does.  TWS is a record of
    functions, the clock a value read once per scan, and what [run_scan]
    logs and tells its callback a list of events. *)

From Stdlib Require Import ZArith QArith Qminmax Floats Lia.
From Stdlib Require Import Lqa.
From stdpp Require Import base option list strings gmap fin_maps pretty.

Set Warnings "-inexact-float".

Local Open Scope Z_scope.

(** ** Numbers *)

Class Number (F : Type) := {
  nadd : F -> F -> F;
  nsub : F -> F -> F;
  nmul : F -> F -> F;
  ndiv : F -> F -> F;
  ngt : F -> F -> bool;          (* Python's [a > b] *)
  nmax : F -> F -> F;            (* pandas row-wise max of two cells *)
  nmin : F -> F -> F;            (* pandas row-wise min of two cells *)
  of_int : Z -> F;               (* an int literal used in float arithmetic *)
  truthy : F -> bool             (* Python's truth value of a float *)
}.

(** Exact rationals. *)
Definition Qgt_bool (a b : Q) : bool := negb (Qle_bool a b).

#[export] Instance Number_Q : Number Q := {|
  nadd := Qplus; nsub := Qminus; nmul := Qmult; ndiv := Qdiv;
  ngt := Qgt_bool; nmax := Qmax; nmin := Qmin;
  of_int := inject_Z;
  truthy := fun x => negb (Qeq_bool x 0)
|}.

(** IEEE binary64.  [DataFrame.max(axis=1)] and [min] skip NaN cells
    ([skipna=True]); a row of NaNs gives NaN. *)
Definition is_nan (x : float) : bool := negb (PrimFloat.eqb x x).

(** The same on the specification's floats. *)
Definition sf_number (f : spec_float) : Prop :=
  match f with S754_nan => False | _ => True end.

Definition fmax (a b : float) : float :=
  if is_nan a then b else if is_nan b then a
  else if PrimFloat.ltb a b then b else a.

Definition fmin (a b : float) : float :=
  if is_nan a then b else if is_nan b then a
  else if PrimFloat.ltb b a then b else a.

Definition float_of_int (z : Z) : float :=
  if z <? 0 then PrimFloat.opp (PrimFloat.of_uint63 (Uint63.of_Z (- z)))
  else PrimFloat.of_uint63 (Uint63.of_Z z).

#[export] Instance Number_float : Number float := {|
  nadd := PrimFloat.add; nsub := PrimFloat.sub;
  nmul := PrimFloat.mul; ndiv := PrimFloat.div;
  ngt := fun a b => PrimFloat.ltb b a; nmax := fmax; nmin := fmin;
  of_int := float_of_int;
  truthy := fun x => negb (PrimFloat.eqb x 0)
|}.

(** ** Data model *)

Set Implicit Arguments.
Set Maximal Implicit Insertion.

(** A timestamp in the exchange's timezone: the calendar day (as an ordinal)
    and the time within the day. *)
Record DateTime := { date : Z; time_of_day : Z }.

Inductive Exchange := NASDAQ | NYSE | BOTH.

Record ScannerSettings (F : Type) := {
  exchange : Exchange;
  min_price : F;
  max_price : F;
  min_market_cap : F;
  max_market_cap : F;
  min_volume : Z;
  timeframe_minutes : Z;
  detect_ha_candle : bool;
  detect_normal_candle : bool
}.

Module ScanResult.
Record t (F : Type) := mk {
  symbol : string;
  last_price : F;
  change_percent : F;
  bid : F;
  ask : F;
  market_cap : F;
  volume : F;
  ha_bullish : bool;
  normal_bullish : bool;
  first_candle_volume : Z;
  scan_time : DateTime;
  parameters_used : string
}.
End ScanResult.
Abbreviation ScanResult := ScanResult.t.

(** The ticker object of [ib.reqMktData], as far as the scanner reads it. *)
Module Ticker.
Record t (F : Type) := mk { last : F; close : F; bid : F; ask : F; volume : F }.
End Ticker.
Abbreviation Ticker := Ticker.t.

Record Contract := { symbol : string }.

(** One row of the frame that [_get_historical_bars] builds from the bars
    of [reqHistoricalData].  The volume is a whole number of shares, so
    that [int(first_candle['volume'])] is that number. *)
Record Bar (F : Type) := {
  datetime : DateTime;
  open : F; high : F; low : F; close : F;
  volume : Z
}.

(** The four columns that [calculate] adds. *)
Record HA (F : Type) := { ha_open : F; ha_high : F; ha_low : F; ha_close : F }.

(** A pandas DataFrame as the scanner uses it: the OHLCV columns, with or
    without the four Heikin Ashi columns. *)
Inductive DataFrame (F : Type) :=
  | OHLCV (rows : list (Bar F))
  | OHLCV_HA (rows : list (Bar F * HA F)).

(** An entry of [scan_history]. *)
Record ScanRun (F : Type) := {
  timestamp : DateTime;
  parameters : string;
  run_results : gmap string (ScanResult F)
}.

(** The fields of [IBKRScanner] that a scan reads or writes.  [_callback]
    tells whether a callback is registered; its calls are events. *)
Record IBKRScanner (F : Type) := {
  connected : bool;
  settings : ScannerSettings F;
  results : gmap string (ScanResult F);
  scan_history : list (ScanRun F);
  _callback : bool
}.

(** What the scan asks of TWS; [None] stands for a raised exception.  The
    scanner subscription and its filter tags are built from the settings. *)
Record Upstream (F : Type) := {
  reqScannerData : ScannerSettings F -> option (list Contract);
  reqHistoricalData : Contract -> Z -> option (list (Bar F));
  reqMktData : Contract -> option (Ticker F)
}.

(** What a scan does to the outside: the records it logs and the calls of
    the registered callback. *)
Inductive Event (F : Type) :=
  | LogError (msg : string)
  | LogInfo (msg : string)
  | Callback (rs : gmap string (ScanResult F)).
Arguments LogError {F}.
Arguments LogInfo {F}.
Arguments Callback {F}.

Unset Implicit Arguments.
Unset Maximal Implicit Insertion.

Section Scanner.
Context {F : Type} `{Number F}.

Definition bars (df : DataFrame F) : list (Bar F) :=
  match df with
  | OHLCV rows => rows
  | OHLCV_HA rows => rows.*1
  end.

(** The Heikin Ashi columns of a frame, row by row; none without them. *)
Definition smoothed (df : DataFrame F) : list (HA F) :=
  match df with
  | OHLCV _ => []
  | OHLCV_HA rows => rows.*2
  end.

Definition len (df : DataFrame F) : nat := length (bars df).

(** [df.empty] *)
Definition empty (df : DataFrame F) : bool :=
  match bars df with [] => true | _ => false end.

(** ['ha_close' in df.columns] *)
Definition has_ha_columns (df : DataFrame F) : bool :=
  match df with OHLCV _ => false | OHLCV_HA _ => true end.

(** [df[mask]] for a row-wise predicate on the OHLCV columns. *)
Definition select (p : Bar F -> bool) (df : DataFrame F) : DataFrame F :=
  match df with
  | OHLCV rows => OHLCV (List.filter p rows)
  | OHLCV_HA rows => OHLCV_HA (List.filter (fun r => p r.1) rows)
  end.

(** [s.iloc[i]] and Python's [l[i]]: a negative index counts from the end;
    [None] stands for the raised [IndexError]. *)
Definition iloc {A} (l : list A) (i : Z) : option A :=
  let n := Z.of_nat (length l) in
  let j := if i <? 0 then i + n else i in
  if (0 <=? j) && (j <? n) then l !! Z.to_nat j else None.

(** ** Candle transform: [HeikinAshiCalculator] *)

(** [(df['open'] + df['high'] + df['low'] + df['close']) / 4], one row. *)
Definition ha_close_of (b : Bar F) : F :=
  ndiv (nadd (nadd (nadd (open b) (high b)) (low b)) (close b)) (of_int 4).

(** One turn of [for i in range(1, len(df))]: the list [ha_open] grows by
    the mean of its entry and of [ha_close] at [i - 1]. *)
Definition ha_open_step (closes : list F) (acc : option (list F)) (i : nat)
  : option (list F) :=
  opens ← acc;
  prev_ha_open ← iloc opens (Z.of_nat i - 1);
  prev_ha_close ← iloc closes (Z.of_nat i - 1);
  Some (opens ++ [ndiv (nadd prev_ha_open prev_ha_close) (of_int 2)]).

Definition ha_open_loop (closes : list F) (first_open : F) (n : nat)
  : option (list F) :=
  foldl (ha_open_step closes) (Some [first_open]) (seq 1 (n - 1)).

(** The row of the result: [max(axis=1)] over [high, ha_open, ha_close] and
    [min(axis=1)] over [low, ha_open, ha_close]. *)
Definition ha_row (b : Bar F) (o c : F) : Bar F * HA F :=
  (b, {| ha_open := o;
         ha_high := nmax (nmax (high b) o) c;
         ha_low := nmin (nmin (low b) o) c;
         ha_close := c |}).

Fixpoint ha_rows (bs : list (Bar F)) (opens closes : list F)
  : list (Bar F * HA F) :=
  match bs, opens, closes with
  | b :: bs', o :: opens', c :: closes' =>
      ha_row b o c :: ha_rows bs' opens' closes'
  | _, _, _ => []
  end.

(** [HeikinAshiCalculator.calculate].  Assigning the list [ha_open] as a
    column raises when its length is not the frame's. *)
Definition calculate (df : DataFrame F) : option (DataFrame F) :=
  if empty df then Some df
  else
    let closes := ha_close_of <$> bars df in
    first ← iloc (bars df) 0;
    opens ← ha_open_loop closes (open first) (len df);
    if decide (length opens = len df)
    then Some (OHLCV_HA (ha_rows (bars df) opens closes))
    else None.

(** [HeikinAshiCalculator.is_bullish] *)
Definition is_bullish (ha_df : DataFrame F) (index : Z) : option bool :=
  if empty ha_df || negb (has_ha_columns ha_df) then Some false
  else
    c ← iloc (ha_close <$> smoothed ha_df) index;
    o ← iloc (ha_open <$> smoothed ha_df) index;
    Some (ngt c o).

(** ** Signal evaluator: [IBKRScanner._analyze_first_candle], [_scan_stock] *)

Section Evaluator.
(** [str] of a float, as the f-strings apply it. *)
Variable str_float : F -> string.
Variable ib : Upstream F.
(** What [datetime.now(self.est_tz)] gives during the scan. *)
Variable now : DateTime.
Variable self : IBKRScanner F.

Definition _get_historical_bars (contract : Contract) : DataFrame F :=
  if negb (connected self) then OHLCV []
  else
    match reqHistoricalData ib contract (timeframe_minutes (settings self)) with
    | Some (b :: bs) => OHLCV (b :: bs)
    | Some [] => OHLCV []
    | None => OHLCV []
    end.

(** The dict of [_get_market_data]; the empty dict when not connected or
    when the request raised. *)
Definition _get_market_data (contract : Contract) : gmap string F :=
  if negb (connected self) then ∅
  else
    match reqMktData ib contract with
    | Some ticker =>
        {[ "last_price" :=
             if truthy (Ticker.last ticker) then Ticker.last ticker
             else Ticker.close ticker;
           "bid" := if truthy (Ticker.bid ticker) then Ticker.bid ticker
                    else of_int 0;
           "ask" := if truthy (Ticker.ask ticker) then Ticker.ask ticker
                    else of_int 0;
           "volume" := if truthy (Ticker.volume ticker)
                       then Ticker.volume ticker else of_int 0 ]}
    | None => ∅
    end.

(** The market cap is not parsed from the report: it is 0.0 whether the
    request returns or raises. *)
Definition _get_fundamental_data (contract : Contract) : gmap string F :=
  if negb (connected self) then ∅
  else {[ "market_cap" := of_int 0 ]}.

(** "Filter to today's data only":
    [df[df['datetime'].dt.date == now.date()]] *)
Definition today_df (df : DataFrame F) : DataFrame F :=
  select (fun b => bool_decide (date (datetime b) = date now)) df.

Definition _analyze_first_candle (df : DataFrame F)
  : option (bool * bool * Z) :=
  if empty df then Some (false, false, 0)
  else
    let today_df := today_df df in
    if empty today_df then Some (false, false, 0)
    else
      first_candle ← iloc (bars today_df) 0;
      let first_candle_volume := volume first_candle in
      let normal_bullish := ngt (close first_candle) (open first_candle) in
      ha_bullish ←
        (if detect_ha_candle (settings self)
         then ha_df ← calculate today_df; is_bullish ha_df 0
         else Some false);
      Some (ha_bullish, normal_bullish, first_candle_volume).

(** The first [if] of "Check if any condition is met": does it return
    [None]? *)
Definition ha_check_rejects (ha_bullish normal_bullish : bool) : bool :=
  if detect_ha_candle (settings self) && negb ha_bullish then
    if detect_normal_candle (settings self) && negb normal_bullish then true
    else if negb (detect_normal_candle (settings self)) then true
    else false
  else false.

(** The second [if]. *)
Definition normal_check_rejects (ha_bullish normal_bullish : bool) : bool :=
  if detect_normal_candle (settings self) && negb normal_bullish then
    if detect_ha_candle (settings self) && negb ha_bullish then true
    else if negb (detect_ha_candle (settings self)) then true
    else false
  else false.

(** The qualification decision: neither [if] returns [None]. *)
Definition any_condition_met (ha_bullish normal_bullish : bool) : bool :=
  negb (ha_check_rejects ha_bullish normal_bullish)
  && negb (normal_check_rejects ha_bullish normal_bullish).

(** "Calculate change percent": the pair [(change_percent, last_price)]. *)
Definition calc_change_percent (df : DataFrame F) (mkt_data : gmap string F)
  : option (F * F) :=
  if negb (empty df) then
    let closes := close <$> bars df in
    prev_close ← (if decide (1 < len df)%nat then iloc closes (-2)
                   else iloc closes (-1));
    last_close ← iloc closes (-1);
    let last_price := default last_close (mkt_data !! "last_price") in
    let change_percent :=
      if ngt prev_close (of_int 0)
      then nmul (ndiv (nsub last_price prev_close) prev_close) (of_int 100)
      else of_int 0 in
    Some (change_percent, last_price)
  else Some (of_int 0, of_int 0).

Definition params_string : string :=
  "TF:" +:+ pretty (timeframe_minutes (settings self)) +:+ "m | Vol:"
  +:+ pretty (min_volume (settings self)) +:+ " | Price:$"
  +:+ str_float (min_price (settings self)) +:+ "-$"
  +:+ str_float (max_price (settings self)).

(** The body of the [try] of [_scan_stock]: the outer [None] is a raised
    exception, the inner one the returned [None]. *)
Definition scan_stock_try (contract : Contract)
  : option (option (ScanResult F)) :=
  let symbol := symbol contract in
  let df := _get_historical_bars contract in
  if empty df then Some None
  else
    '(ha_bullish, normal_bullish, first_candle_volume) ←
      _analyze_first_candle df;
    if first_candle_volume <? min_volume (settings self) then Some None
    else if negb (any_condition_met ha_bullish normal_bullish) then Some None
    else
      let mkt_data := _get_market_data contract in
      let fund_data := _get_fundamental_data contract in
      '(change_percent, last_price) ← calc_change_percent df mkt_data;
      Some (Some
        (ScanResult.mk symbol
           (default last_price (mkt_data !! "last_price"))
           change_percent
           (default (of_int 0) (mkt_data !! "bid"))
           (default (of_int 0) (mkt_data !! "ask"))
           (default (of_int 0) (fund_data !! "market_cap"))
           (default (of_int 0) (mkt_data !! "volume"))
           ha_bullish normal_bullish first_candle_volume
           now params_string)).

(** [_scan_stock]: [except Exception] logs and returns [None]. *)
Definition _scan_stock (contract : Contract) : option (ScanResult F) :=
  match scan_stock_try contract with
  | Some result => result
  | None => None
  end.

End Evaluator.

(** ** Scan orchestrator: [IBKRScanner.run_scan] *)

Section Orchestrator.
Variable str_float : F -> string.
Variable ib : Upstream F.
Variable now : DateTime.

Definition _fetch_stock_universe (self : IBKRScanner F) : list Contract :=
  if negb (connected self) then []
  else
    match reqScannerData ib (settings self) with
    | Some contracts => contracts
    | None => []
    end.

(** [str] of a bool. *)
Definition str_bool (b : bool) : string := if b then "True" else "False".

(** "Store current results as previous run": the truth value of a dict
    is that it has an entry. *)
Definition archive (self : IBKRScanner F) : list (ScanRun F) :=
  if negb (Nat.eqb (size (results self)) 0) then
    scan_history self ++
      [ {| timestamp := now;
           parameters :=
             "TF:" +:+ pretty (timeframe_minutes (settings self)) +:+ "m";
           run_results := results self |} ]
  else scan_history self.

(** One turn of [for contract in contracts]. *)
Definition scan_step (self : IBKRScanner F)
    (acc : gmap string (ScanResult F) * list (Event F)) (contract : Contract)
  : gmap string (ScanResult F) * list (Event F) :=
  match _scan_stock str_float ib now self contract with
  | Some result =>
      (<[ ScanResult.symbol result := result ]> acc.1,
       acc.2 ++
         [LogInfo ("Found signal: " +:+ ScanResult.symbol result
                   +:+ " - HA:" +:+ str_bool (ScanResult.ha_bullish result)
                   +:+ " Normal:"
                   +:+ str_bool (ScanResult.normal_bullish result))])
  | None => acc
  end.

(** [run_scan]: the returned dict, the scanner afterwards, and the records
    logged and callbacks made by [run_scan] itself, in order. *)
Definition run_scan (self : IBKRScanner F)
  : gmap string (ScanResult F) * IBKRScanner F * list (Event F) :=
  if negb (connected self) then
    (∅, self, [LogError "Not connected to IBKR TWS"])
  else
    let self1 :=
      {| connected := connected self; settings := settings self;
         results := results self; scan_history := archive self;
         _callback := _callback self |} in
    let contracts := _fetch_stock_universe self1 in
    let '(new_results, found) := foldl (scan_step self1) (∅, []) contracts in
    let self2 :=
      {| connected := connected self1; settings := settings self1;
         results := new_results; scan_history := scan_history self1;
         _callback := _callback self1 |} in
    (results self2, self2,
     [LogInfo "Starting scan..."] ++ found
     ++ (if _callback self2 then [Callback (results self2)] else [])
     ++ [LogInfo ("Scan complete. Found " +:+ pretty (size (results self2))
                  +:+ " stocks meeting criteria.")]).

End Orchestrator.

End Scanner.

(** ** Comparing scans *)

(** A record with its [scan_time] set aside. *)
Definition without_scan_time {F} (r : ScanResult F) : ScanResult F :=
  ScanResult.mk (ScanResult.symbol r) (ScanResult.last_price r)
    (ScanResult.change_percent r) (ScanResult.bid r) (ScanResult.ask r)
    (ScanResult.market_cap r) (ScanResult.volume r)
    (ScanResult.ha_bullish r) (ScanResult.normal_bullish r)
    (ScanResult.first_candle_volume r)
    {| date := 0; time_of_day := 0 |}
    (ScanResult.parameters_used r).

(** The number of entries that "Store current results as previous run"
    appends for a live set. *)
Definition archived {F} (live : gmap string (ScanResult F)) : nat :=
  if Nat.eqb (size live) 0 then 0%nat else 1%nat.

(** ** The qualification rule as the specification words it *)

Definition spec_qualifies
    (detect_smoothed detect_normal smoothed_bullish normal_bullish : bool)
  : bool :=
  (negb detect_smoothed || smoothed_bullish)
  && (negb detect_normal || normal_bullish)
  && (detect_smoothed || detect_normal).

(** ** The scanner at work *)

(** The settings of [ScannerSettings()], but for the minimum volume and
    the two toggles. *)
Definition settings_with {F} `{Number F} (min_vol : Z)
    (detect_ha detect_normal : bool) : ScannerSettings F :=
  {| exchange := BOTH;
     min_price := of_int 0; max_price := of_int 100;
     min_market_cap := of_int 0; max_market_cap := of_int 100;
     min_volume := min_vol; timeframe_minutes := 2;
     detect_ha_candle := detect_ha; detect_normal_candle := detect_normal |}.

(** [ScannerSettings()]: the defaults of the dataclass. *)
Definition default_settings {F} `{Number F} : ScannerSettings F :=
  settings_with 100000 true true.

(** A connected scanner with these settings and this live set, and no
    history. *)
Definition scanner_with {F} (st : ScannerSettings F)
    (live : gmap string (ScanResult F)) : IBKRScanner F :=
  {| connected := true; settings := st; results := live;
     scan_history := []; _callback := true |}.

(** A bar at 09:30 of day [d]. *)
Definition bar_at {F} (d : Z) (o h l c : F) (v : Z) : Bar F :=
  {| datetime := {| date := d; time_of_day := 34200 |};
     open := o; high := h; low := l; close := c; volume := v |}.

(** TWS with one stock, its bars and its last trade. *)
Definition AAA : Contract := {| symbol := "AAA" |}.

Definition tws_one {F} `{Number F} (bs : list (Bar F)) (last_trade : F)
  : Upstream F :=
  {| reqScannerData := fun _ => Some [AAA];
     reqHistoricalData := fun _ _ => Some bs;
     reqMktData := fun _ =>
       Some (Ticker.mk last_trade (of_int 0) (of_int 0) (of_int 0)
               (of_int 0)) |}.

(** Ten to ten on day 1. *)
Definition day1 : DateTime := {| date := 1; time_of_day := 35400 |}.

(** The rendering of floats in [parameters_used] plays no part below. *)
Definition no_repr {F} : F -> string := fun _ => "".

(** A first candle that rises from 10 to 10.5 after a low of 1: bullish
    as a normal candle, not as a Heikin Ashi candle. *)
Definition long_wick : list (Bar float) :=
  [bar_at 1 10 11 1 10.5 200000]%float.

(** Yesterday's bars only. *)
Definition yesterday_only : list (Bar float) :=
  [bar_at 0 10 12 9 11 500000]%float.

(** Two bars of the session closing at 10 and at 8; the last trade is at
    7.6. *)
Definition two_bars_f : list (Bar float) :=
  [bar_at 1 9.5 10 9.5 10 200000; bar_at 1 9 9 8 8 1000]%float.

Definition two_bars_q : list (Bar Q) :=
  [bar_at 1 (95 # 10) 10 (95 # 10) 10 200000; bar_at 1 9 9 8 8 1000]%Q.

(** A live set left by an earlier scan. *)
Definition old_live : gmap string (ScanResult float) :=
  {[ "OLD" := ScanResult.mk "OLD" 5 0 0 0 0 0 true true 300000 day1 "" ]}%float.

(** Scanners: both signals asked for; none asked for and no minimum
    volume; the normal candle only, with and without a live set; the same
    in exact arithmetic. *)
Definition both_signals : IBKRScanner float :=
  scanner_with (settings_with 100000 true true) ∅.

Definition no_filter : IBKRScanner float :=
  scanner_with (settings_with 0 false false) ∅.

Definition normal_only : IBKRScanner float :=
  scanner_with (settings_with 100000 false true) ∅.

Definition normal_only_live : IBKRScanner float :=
  scanner_with (settings_with 100000 false true) old_live.

Definition normal_only_q : IBKRScanner Q :=
  scanner_with (settings_with 100000 false true) ∅.

(** A scanner that is not connected, with a live set. *)
Definition offline : IBKRScanner float :=
  {| connected := false; settings := settings_with 100000 true true;
     results := old_live; scan_history := []; _callback := true |}.

(** A quarter of an hour later on day 1. *)
Definition day1_later : DateTime := {| date := 1; time_of_day := 36300 |}.

(** The single bar of the specification's scenarios, with its volume. *)
Definition single_bar (v : Z) : list (Bar float) :=
  [bar_at 1 10 12 9 11 v]%float.

(** The first bar of [two_bars_f] alone. *)
Definition first_bar_only : list (Bar float) :=
  [bar_at 1 9.5 10 9.5 10 200000]%float.

(** TWS whose scanner request raises. *)
Definition tws_no_scanner : Upstream float :=
  {| reqScannerData := fun _ => None;
     reqHistoricalData := fun _ _ => Some two_bars_f;
     reqMktData := fun _ => None |}.

(** TWS with one stock whose market data request raises. *)
Definition tws_no_quote : Upstream float :=
  {| reqScannerData := fun _ => Some [AAA];
     reqHistoricalData := fun _ _ => Some two_bars_f;
     reqMktData := fun _ => None |}.

(** The default settings with a timeframe of five minutes. *)
Definition five_minutes : ScannerSettings float :=
  {| exchange := BOTH;
     min_price := 0; max_price := 100;
     min_market_cap := 0; max_market_cap := 100;
     min_volume := 100000; timeframe_minutes := 5;
     detect_ha_candle := true; detect_normal_candle := true |}%float.

(** A frame of two rows with its Heikin Ashi columns. *)
Definition two_rows_ha : DataFrame float :=
  OHLCV_HA [(bar_at 1 10 12 9 11 500000, Build_HA 10 12 9 10.5);
            (bar_at 1 11 12 8 9 1000, Build_HA 10.25 12 8 10)]%float.

(** ** The rest of the scanner's interface *)

(** Contracts are compared by their symbol. *)
#[export] Instance Contract_eq_dec : EqDecision Contract.
Proof. solve_decision. Defined.

Section Session.
Context {F : Type}.

Definition update_settings (st : ScannerSettings F) (self : IBKRScanner F)
  : IBKRScanner F :=
  {| connected := connected self; settings := st;
     results := results self; scan_history := scan_history self;
     _callback := _callback self |}.

Definition get_previous_runs (self : IBKRScanner F) : list (ScanRun F) :=
  scan_history self.

(** The argument of a call of the callback. *)
Definition callback_arg (e : Event F) : option (gmap string (ScanResult F)) :=
  match e with Callback rs => Some rs | _ => None end.

End Session.

(** ** Market hours: [IBKRScanner._is_market_open], [_get_first_candle_time] *)

(** A [datetime] of the exchange's timezone by its fields: the day as its
    proleptic Gregorian ordinal ([toordinal()]), and the time of day. *)
Record Datetime := {
  dt_ordinal : Z;
  dt_hour : Z;
  dt_minute : Z;
  dt_second : Z;
  dt_microsecond : Z
}.

(** The ranges of the fields of a [datetime]. *)
Definition Datetime_valid (dt : Datetime) : Prop :=
  1 <= dt_ordinal dt <= 3652059
  /\ 0 <= dt_hour dt < 24 /\ 0 <= dt_minute dt < 60
  /\ 0 <= dt_second dt < 60 /\ 0 <= dt_microsecond dt < 1000000.

(** Microseconds since midnight. *)
Definition us_of_day (dt : Datetime) : Z :=
  ((dt_hour dt * 60 + dt_minute dt) * 60 + dt_second dt) * 1000000
  + dt_microsecond dt.

(** [dt.weekday()]: Monday is 0. *)
Definition weekday (dt : Datetime) : Z := (dt_ordinal dt + 6) mod 7.

(** [dt.replace(hour=h, minute=m, second=0, microsecond=0)] *)
Definition replace_time (dt : Datetime) (h m : Z) : Datetime :=
  {| dt_ordinal := dt_ordinal dt; dt_hour := h; dt_minute := m;
     dt_second := 0; dt_microsecond := 0 |}.

(** [a <= b] on datetimes of one timezone: the fields in order, the first
    difference deciding. *)
Fixpoint lex_le (a b : list Z) : bool :=
  match a, b with
  | x :: a', y :: b' =>
      if x <? y then true else if y <? x then false else lex_le a' b'
  | _, _ => true
  end.

Definition dt_fields (dt : Datetime) : list Z :=
  [dt_ordinal dt; dt_hour dt; dt_minute dt; dt_second dt; dt_microsecond dt].

Definition dt_le (a b : Datetime) : bool := lex_le (dt_fields a) (dt_fields b).

(** [_is_market_open], on what [datetime.now(self.est_tz)] gives. *)
Definition _is_market_open (now : Datetime) : bool :=
  let market_open := replace_time now 9 30 in
  let market_close := replace_time now 16 0 in
  if 5 <=? weekday now then false
  else dt_le market_open now && dt_le now market_close.

(** [dt + timedelta(minutes=n)]; [None] stands for the [OverflowError] of
    a timedelta of more than 999999999 days or of a day outside the
    calendar. *)
Definition add_minutes (dt : Datetime) (n : Z) : option Datetime :=
  if (n * 60 / 86400 <? -999999999) || (999999999 <? n * 60 / 86400)
  then None
  else
    let total := us_of_day dt + n * 60 * 1000000 in
    let days := dt_ordinal dt + total / 86400000000 in
    let seconds := total mod 86400000000 / 1000000 in
    if (0 <? days) && (days <=? 3652059) then
      Some {| dt_ordinal := days;
              dt_hour := seconds / 3600;
              dt_minute := seconds mod 3600 / 60;
              dt_second := seconds mod 60;
              dt_microsecond := total mod 86400000000 mod 1000000 |}
    else None.

(** [_get_first_candle_time] *)
Definition _get_first_candle_time (now : Datetime) (timeframe : Z)
  : option Datetime :=
  let market_open := replace_time now 9 30 in
  add_minutes market_open timeframe.

(** Tuesday 2 January 2024, at ten to ten and at half past four in the
    afternoon. *)
Definition tuesday_morning : Datetime :=
  {| dt_ordinal := 738887; dt_hour := 9; dt_minute := 50;
     dt_second := 0; dt_microsecond := 0 |}.

Definition tuesday_evening : Datetime :=
  {| dt_ordinal := 738887; dt_hour := 16; dt_minute := 30;
     dt_second := 0; dt_microsecond := 0 |}.

(** ** Settings on file and their validation: [gui.py], [utils.py] *)

(** The JSON object of the settings file, for objects whose entries have
    the types that [save_settings_to_file] writes; an entry may be
    missing.  Such values come back from [json.load] as [json.dump] wrote
    them. *)
Record SettingsData (F : Type) := {
  d_exchange : option string;
  d_min_price : option F;
  d_max_price : option F;
  d_min_market_cap : option F;
  d_max_market_cap : option F;
  d_min_volume : option Z;
  d_timeframe_minutes : option Z;
  d_detect_ha_candle : option bool;
  d_detect_normal_candle : option bool
}.
Arguments d_exchange {F} _.
Arguments d_min_price {F} _.
Arguments d_max_price {F} _.
Arguments d_min_market_cap {F} _.
Arguments d_max_market_cap {F} _.
Arguments d_min_volume {F} _.
Arguments d_timeframe_minutes {F} _.
Arguments d_detect_ha_candle {F} _.
Arguments d_detect_normal_candle {F} _.

(** [exchange.value] *)
Definition exchange_value (e : Exchange) : string :=
  match e with NASDAQ => "NASDAQ" | NYSE => "NYSE" | BOTH => "BOTH" end.

(** [Exchange[name]]; [None] stands for the [KeyError]. *)
Definition exchange_of_name (name : string) : option Exchange :=
  if String.eqb name "NASDAQ" then Some NASDAQ
  else if String.eqb name "NYSE" then Some NYSE
  else if String.eqb name "BOTH" then Some BOTH
  else None.

Section SettingsFile.
Context {F : Type} `{Number F}.

(** [load_saved_settings], on the content of the settings file: [None]
    for a file that is missing or does not parse. *)
Definition load_saved_settings (file : option (SettingsData F))
  : option (ScannerSettings F) :=
  match file with
  | None => None
  | Some data =>
      match exchange_of_name (default "BOTH" (d_exchange data)) with
      | Some e =>
          Some {| exchange := e;
                  min_price := default (of_int 0) (d_min_price data);
                  max_price := default (of_int 100) (d_max_price data);
                  min_market_cap :=
                    default (of_int 0) (d_min_market_cap data);
                  max_market_cap :=
                    default (of_int 100) (d_max_market_cap data);
                  min_volume := default 100000 (d_min_volume data);
                  timeframe_minutes :=
                    default 2 (d_timeframe_minutes data);
                  detect_ha_candle :=
                    default true (d_detect_ha_candle data);
                  detect_normal_candle :=
                    default true (d_detect_normal_candle data) |}
      | None => None
      end
  end.

(** [save_settings_to_file]: the returned flag and the file afterwards;
    [writable] tells whether the file can be written. *)
Definition save_settings_to_file (writable : bool)
    (st : ScannerSettings F) (file : option (SettingsData F))
  : bool * option (SettingsData F) :=
  if writable then
    (true,
     Some {| d_exchange := Some (exchange_value (exchange st));
             d_min_price := Some (min_price st);
             d_max_price := Some (max_price st);
             d_min_market_cap := Some (min_market_cap st);
             d_max_market_cap := Some (max_market_cap st);
             d_min_volume := Some (min_volume st);
             d_timeframe_minutes := Some (timeframe_minutes st);
             d_detect_ha_candle := Some (detect_ha_candle st);
             d_detect_normal_candle := Some (detect_normal_candle st) |})
  else (false, file).

(** The loop of [_update_results_table] over [results.items()]: the
    counts of records with a bullish Heikin Ashi flag and with a bullish
    normal flag. *)
Definition signal_counts (rs : gmap string (ScanResult F)) : nat * nat :=
  map_fold
    (fun _ result counts =>
       (if ScanResult.ha_bullish result then S counts.1 else counts.1,
        if ScanResult.normal_bullish result then S counts.2 else counts.2))
    (0%nat, 0%nat) rs.

End SettingsFile.

(** [validate_settings] of [utils.py], on a dict whose values are
    numbers. *)
Definition valid_timeframes : list Q := [1; 2; 3; 5; 10; 15; 30; 60]%Q.

Definition validate_settings (st : gmap string Q) : list string :=
  let get (key : string) (d : Q) := default d (st !! key) in
  (if Qgt_bool 0%Q (get "min_price" 0%Q)
   then ["Minimum price cannot be negative"] else [])
  ++ (if Qgt_bool (get "min_price" 0%Q) (get "max_price" 0%Q)
      then ["Maximum price must be greater than minimum price"] else [])
  ++ (if Qgt_bool 0%Q (get "min_market_cap" 0%Q)
      then ["Minimum market cap cannot be negative"] else [])
  ++ (if Qgt_bool (get "min_market_cap" 0%Q) (get "max_market_cap" 0%Q)
      then ["Maximum market cap must be greater than minimum"] else [])
  ++ (if Qgt_bool 0%Q (get "min_volume" 0%Q)
      then ["Minimum volume cannot be negative"] else [])
  ++ (if match st !! "timeframe_minutes" with
         | Some tf => existsb (Qeq_bool tf) valid_timeframes
         | None => false
         end
      then []
      else ["Timeframe must be one of: [1, 2, 3, 5, 10, 15, 30, 60]"]).

(** ** Scanner subscription filters: [IBKRScanner._get_scanner_filters] *)

(** [TagValue(tag, value)] of [ib_insync]. *)
Record TagValue := { tag : string; value : string }.

(** [int(x)] of a float: truncation toward zero; [None] stands for the
    [OverflowError] on an infinity and the [ValueError] on a NaN. *)
Definition int_of_float (x : float) : option Z :=
  match Prim2SF x with
  | S754_zero _ => Some 0
  | S754_finite s m e =>
      let magnitude :=
        if 0 <=? e then Z.pos m * 2 ^ e else Z.pos m / 2 ^ (- e) in
      Some (if s then - magnitude else magnitude)
  | S754_infinity _ => None
  | S754_nan => None
  end.

(** The order in which [_get_scanner_filters] considers its tags. *)
Definition scanner_tags : list string :=
  ["priceAbove"; "priceBelow"; "marketCapAbove"; "marketCapBelow";
   "volumeAbove"].

(** [_get_scanner_filters], with [str] of a float as [str_float]; [None]
    stands for the exception of [int]. *)
Definition _get_scanner_filters (str_float : float -> string)
    (self : IBKRScanner float) : option (list TagValue) :=
  let st := settings self in
  let filters := [] in
  let filters :=
    if PrimFloat.ltb 0 (min_price st)
    then filters ++ [{| tag := "priceAbove";
                        value := str_float (min_price st) |}]
    else filters in
  let filters :=
    if PrimFloat.ltb (max_price st) infinity
    then filters ++ [{| tag := "priceBelow";
                        value := str_float (max_price st) |}]
    else filters in
  filters ←
    (if PrimFloat.ltb 0 (min_market_cap st)
     then n ← int_of_float (min_market_cap st * 1e9)%float;
          Some (filters ++ [{| tag := "marketCapAbove";
                               value := pretty n |}])
     else Some filters);
  filters ←
    (if PrimFloat.ltb (max_market_cap st) infinity
     then n ← int_of_float (max_market_cap st * 1e9)%float;
          Some (filters ++ [{| tag := "marketCapBelow";
                               value := pretty n |}])
     else Some filters);
  Some (if 0 <? min_volume st
        then filters ++ [{| tag := "volumeAbove";
                            value := pretty (min_volume st) |}]
        else filters).

(** ** Indexing *)

Section Indexing.
Context {A : Type}.
Implicit Types (l : list A) (i : Z).

Lemma iloc_nonneg l i : 0 <= i -> iloc l i = l !! Z.to_nat i.
Proof.
  intros Hi. unfold iloc.
  destruct (Z.ltb_spec i 0) as [?|_]; [lia|].
  destruct (Z.leb_spec 0 i) as [_|?]; [|lia].
  destruct (Z.ltb_spec i (Z.of_nat (length l))) as [?|Hge]; simpl; [done|].
  symmetry. apply lookup_ge_None. lia.
Qed.

Lemma iloc_nat l (n : nat) : iloc l (Z.of_nat n) = l !! n.
Proof. rewrite iloc_nonneg by lia. by rewrite Nat2Z.id. Qed.

Lemma iloc_neg l i :
  i < 0 -> - Z.of_nat (length l) <= i ->
  iloc l i = l !! Z.to_nat (i + Z.of_nat (length l)).
Proof.
  intros Hneg Hlow. unfold iloc.
  destruct (Z.ltb_spec i 0) as [_|?]; [|lia].
  destruct (Z.leb_spec 0 (i + Z.of_nat (length l))) as [_|?]; [|lia].
  destruct (Z.ltb_spec (i + Z.of_nat (length l)) (Z.of_nat (length l)))
    as [_|?]; [done|lia].
Qed.

(** A negative index names the same element as the index counted from the
    front. *)
Lemma iloc_from_end l i :
  i < 0 -> - Z.of_nat (length l) <= i ->
  iloc l i = iloc l (i + Z.of_nat (length l)).
Proof.
  intros Hneg Hlow. rewrite iloc_neg by done.
  by rewrite (iloc_nonneg l (i + _)) by lia.
Qed.

(** Outside the list, in either direction, the index raises. *)
Lemma iloc_out_of_range l i :
  i < - Z.of_nat (length l) \/ Z.of_nat (length l) <= i -> iloc l i = None.
Proof.
  intros Hout. unfold iloc.
  destruct (Z.ltb_spec i 0);
    [destruct (Z.leb_spec 0 (i + Z.of_nat (length l)))
    |destruct (Z.leb_spec 0 i)]; cbn [andb]; try done.
  - destruct (Z.ltb_spec (i + Z.of_nat (length l)) (Z.of_nat (length l)));
      [lia|done].
  - destruct (Z.ltb_spec i (Z.of_nat (length l))); [lia|done].
Qed.

Lemma iloc_last l x : iloc (l ++ [x]) (-1) = Some x.
Proof.
  rewrite iloc_neg; rewrite ?length_app; simpl; try lia.
  replace (Z.to_nat (-1 + Z.of_nat (length l + 1))) with (length l) by lia.
  by rewrite list_lookup_middle.
Qed.

Lemma iloc_second_last l x y : iloc (l ++ [x; y]) (-2) = Some x.
Proof.
  rewrite iloc_neg; rewrite ?length_app; simpl; try lia.
  replace (Z.to_nat (-2 + Z.of_nat (length l + 2))) with (length l) by lia.
  by rewrite list_lookup_middle.
Qed.

End Indexing.

(** ** The candle transform *)

Section Candles.
Context {F : Type} `{Number F}.
Implicit Types (df : DataFrame F) (b : Bar F) (r : HA F).

Lemma empty_true df : empty df = true <-> bars df = [].
Proof. unfold empty. destruct (bars df); split; done. Qed.

Lemma empty_false df : empty df = false <-> bars df <> [].
Proof. unfold empty. destruct (bars df); split; done. Qed.

Lemma ha_open_step_Some (closes opens : list F) (i : nat) o c :
  opens !! i = Some o -> closes !! i = Some c ->
  ha_open_step closes (Some opens) (S i)
  = Some (opens ++ [ndiv (nadd o c) (of_int 2)]).
Proof.
  intros Ho Hc. unfold ha_open_step.
  replace (Z.of_nat (S i) - 1) with (Z.of_nat i) by lia.
  cbn [mbind option_bind]. by rewrite !iloc_nat, Ho, Hc.
Qed.

(** The loop that builds [ha_open] raises nothing, and leaves the seed
    followed by the running means. *)
Lemma ha_open_loop_rec (closes : list F) (first_open : F) (k : nat) :
  (k <= length closes)%nat ->
  exists opens,
    foldl (ha_open_step closes) (Some [first_open]) (seq 1 k) = Some opens
    /\ length opens = S k
    /\ opens !! 0%nat = Some first_open
    /\ forall j o c, (j < k)%nat ->
         opens !! j = Some o -> closes !! j = Some c ->
         opens !! S j = Some (ndiv (nadd o c) (of_int 2)).
Proof.
  induction k as [|k IH]; intros Hk.
  - exists [first_open]. repeat split; try done. intros; lia.
  - destruct IH as (opens & Hfold & Hlen & Hhd & Hrec); [lia|].
    destruct (lookup_lt_is_Some_2 opens k) as [o Ho]; [lia|].
    destruct (lookup_lt_is_Some_2 closes k) as [c Hc]; [lia|].
    exists (opens ++ [ndiv (nadd o c) (of_int 2)]).
    rewrite seq_S, foldl_snoc, Hfold.
    split; [by apply ha_open_step_Some|].
    split; [rewrite length_app; simpl; lia|].
    split; [by rewrite lookup_app_l by lia|].
    intros j o' c' Hj Ho' Hc'.
    destruct (decide (j = k)) as [->|Hne].
    + rewrite lookup_app_l in Ho' by lia.
      rewrite <- Hlen, list_lookup_middle by done. congruence.
    + rewrite lookup_app_l in Ho' by lia.
      rewrite lookup_app_l by lia. apply Hrec; [lia|done..].
Qed.

Lemma length_ha_rows (bs : list (Bar F)) (opens closes : list F) :
  length opens = length bs -> length closes = length bs ->
  length (ha_rows bs opens closes) = length bs.
Proof.
  revert opens closes.
  induction bs as [|b bs IH]; intros [|o opens] [|c closes]; simpl; try done.
  intros ??. f_equal. apply IH; lia.
Qed.

Lemma lookup_ha_rows (bs : list (Bar F)) (opens closes : list F) i b o c :
  bs !! i = Some b -> opens !! i = Some o -> closes !! i = Some c ->
  ha_rows bs opens closes !! i = Some (ha_row b o c).
Proof.
  revert opens closes i.
  induction bs as [|b' bs IH]; intros [|o' opens] [|c' closes] [|i];
    simpl; try done.
  - congruence.
  - apply IH.
Qed.

Lemma fst_ha_rows (bs : list (Bar F)) (opens closes : list F) :
  length opens = length bs -> length closes = length bs ->
  (ha_rows bs opens closes).*1 = bs.
Proof.
  revert opens closes.
  induction bs as [|b bs IH]; intros [|o opens] [|c closes]; simpl; try done.
  intros ??. f_equal. apply IH; lia.
Qed.

(** [calculate] raises nothing: on a frame with rows it returns the frame
    with the four columns, whose [ha_open] column is the loop's list. *)
Lemma calculate_rows df b bs :
  bars df = b :: bs ->
  exists opens,
    length opens = len df
    /\ opens !! 0%nat = Some (open b)
    /\ (forall j o c, (S j < len df)%nat ->
          opens !! j = Some o -> (ha_close_of <$> bars df) !! j = Some c ->
          opens !! S j = Some (ndiv (nadd o c) (of_int 2)))
    /\ calculate df
       = Some (OHLCV_HA (ha_rows (bars df) opens (ha_close_of <$> bars df))).
Proof.
  intros Hbars.
  assert (empty df = false) as Hemp by (apply empty_false; by rewrite Hbars).
  destruct (ha_open_loop_rec (ha_close_of <$> bars df) (open b) (len df - 1))
    as (opens & Hfold & Hlen & Hhd & Hrec).
  { rewrite length_fmap. unfold len. lia. }
  assert (length opens = len df) as Hlen'.
  { unfold len in *. rewrite Hbars in *. simpl in *. lia. }
  exists opens. split; [done|]. split; [done|].
  split; [intros j o c Hj; apply Hrec; lia|].
  unfold calculate. rewrite Hemp.
  assert (iloc (bars df) 0 = Some b) as -> by by rewrite Hbars.
  cbn [mbind option_bind]. unfold ha_open_loop. rewrite Hfold.
  cbn [mbind option_bind]. by rewrite decide_True.
Qed.

Lemma calculate_total df : exists out, calculate df = Some out.
Proof.
  destruct (bars df) as [|b bs] eqn:Hbars.
  - exists df. unfold calculate. by rewrite (proj2 (empty_true df) Hbars).
  - destruct (calculate_rows df b bs Hbars) as (opens & _ & _ & _ & Hout).
    by eexists.
Qed.

(** A row of the result of [calculate] is the row of the input with the
    columns that [ha_row] computes from it. *)
Lemma smoothed_lookup df out i b :
  calculate df = Some out -> bars df !! i = Some b ->
  exists o, smoothed out !! i = Some (ha_row b o (ha_close_of b)).2.
Proof.
  intros Hcalc Hb.
  destruct (bars df) as [|b0 bs] eqn:Hbars; [done|].
  destruct (calculate_rows df b0 bs Hbars) as (opens & Hlen & _ & _ & Hout).
  rewrite Hcalc in Hout. injection Hout as ->. rewrite <- Hbars in Hb.
  assert (i < length (bars df))%nat as Hi by by eapply lookup_lt_Some.
  destruct (lookup_lt_is_Some_2 opens i) as [o Ho]; [unfold len in *; lia|].
  exists o. simpl. rewrite list_lookup_fmap.
  erewrite lookup_ha_rows; [done|done|done|].
  by rewrite list_lookup_fmap, Hb.
Qed.

(** C2.  [calculate] returns, for every frame, a frame of the same rows:
    the frame itself when it has no row, and otherwise, at every index,
    [ha_close] is the mean of the row's open, high, low and close,
    [ha_open] is the first row's open at index 0 and the mean of [ha_open]
    and [ha_close] of the row before at a later index, [ha_high] is the
    maximum of high, [ha_open] and [ha_close], and [ha_low] the minimum of
    low, [ha_open] and [ha_close]. *)
Theorem calculate_smoothed df :
  exists out,
    calculate df = Some out
    /\ bars out = bars df
    /\ length (smoothed out) = length (bars df)
    /\ (bars df = [] -> out = df)
    /\ forall (i : nat) b, bars df !! i = Some b ->
         exists r,
           smoothed out !! i = Some r
           /\ ha_close r
              = ndiv (nadd (nadd (nadd (open b) (high b)) (low b)) (close b))
                  (of_int 4)
           /\ match i with
              | O => ha_open r = open b
              | S j => exists p, smoothed out !! j = Some p
                         /\ ha_open r
                            = ndiv (nadd (ha_open p) (ha_close p)) (of_int 2)
              end
           /\ ha_high r = nmax (nmax (high b) (ha_open r)) (ha_close r)
           /\ ha_low r = nmin (nmin (low b) (ha_open r)) (ha_close r).
Proof.
  destruct (bars df) as [|b0 bs] eqn:Hbars.
  - exists df. unfold calculate.
    rewrite (proj2 (empty_true df) Hbars), Hbars.
    repeat split; try done.
    destruct df as [rows|rows]; simpl in *; [done|].
    by rewrite length_fmap, <- (length_fmap fst), Hbars.
  - destruct (calculate_rows df b0 bs Hbars)
      as (opens & Hlen & Hhd & Hrec & Hcalc).
    rewrite <- Hbars. unfold len in *.
    set (closes := ha_close_of <$> bars df) in *.
    assert (length closes = length (bars df)) as Hlenc
      by apply length_fmap.
    eexists. split; [exact Hcalc|]. simpl.
    split; [by apply fst_ha_rows|].
    split; [by rewrite length_fmap, length_ha_rows|].
    split; [by rewrite Hbars|].
    intros i b Hb.
    assert (i < length (bars df))%nat as Hi by by eapply lookup_lt_Some.
    destruct (lookup_lt_is_Some_2 opens i) as [o Ho]; [lia|].
    assert (closes !! i = Some (ha_close_of b)) as Hc
      by (unfold closes; by rewrite list_lookup_fmap, Hb).
    exists (ha_row b o (ha_close_of b)).2.
    rewrite list_lookup_fmap, (lookup_ha_rows _ _ _ _ _ _ _ Hb Ho Hc).
    repeat split; try done.
    destruct i as [|j]; simpl.
    + rewrite Hbars in Hb. simpl in Hb. congruence.
    + destruct (lookup_lt_is_Some_2 (bars df) j) as [b' Hb']; [lia|].
      destruct (lookup_lt_is_Some_2 opens j) as [o' Ho']; [lia|].
      assert (closes !! j = Some (ha_close_of b')) as Hc'
        by (unfold closes; by rewrite list_lookup_fmap, Hb').
      exists (ha_row b' o' (ha_close_of b')).2.
      rewrite list_lookup_fmap, (lookup_ha_rows _ _ _ _ _ _ _ Hb' Ho' Hc').
      split; [done|]. simpl.
      specialize (Hrec j o' _ Hi Ho' Hc'). congruence.
Qed.


End Candles.

(** ** The range of a smoothed candle *)

(** Three cells under a maximum and over a minimum, for any order in which
    [mx] and [mn] of two numbers are their bounds. *)
Section Range.
Context {A : Type}.
Variables (le : A -> A -> Prop) (number : A -> Prop) (mx mn : A -> A -> A).
Hypothesis le_trans : forall a b c, le a b -> le b c -> le a c.
Hypothesis mx_number : forall a b, number a -> number b -> number (mx a b).
Hypothesis mx_l : forall a b, number a -> number b -> le a (mx a b).
Hypothesis mx_r : forall a b, number a -> number b -> le b (mx a b).
Hypothesis mx_lub : forall a b c, le a c -> le b c -> le (mx a b) c.
Hypothesis mn_number : forall a b, number a -> number b -> number (mn a b).
Hypothesis mn_l : forall a b, number a -> number b -> le (mn a b) a.
Hypothesis mn_r : forall a b, number a -> number b -> le (mn a b) b.
Hypothesis mn_glb : forall a b c, le c a -> le c b -> le c (mn a b).

Lemma range_of_three (h l o c : A) :
  number h -> number l -> number o -> number c ->
  le (mn (mn l o) c) (mn (mn o c) l)
  /\ le (mx (mx o c) h) (mx (mx h o) c).
Proof.
  intros Hh Hl Ho Hc. split.
  - repeat apply mn_glb.
    + apply le_trans with (mn l o); auto.
    + auto.
    + apply le_trans with (mn l o); auto.
  - repeat apply mx_lub.
    + apply le_trans with (mx h o); auto.
    + auto.
    + apply le_trans with (mx h o); auto.
Qed.

End Range.

(** The order of binary64 numbers, from the specification of the
    primitive comparisons. *)
Section FloatOrder.
Implicit Types (f g h : spec_float) (x y z : float).

Lemma SFcompare_refl f : sf_number f -> SFcompare f f = Some Eq.
Proof.
  destruct f as [s|s| |s m e]; simpl; try done; intros Hf.
  - by destruct s.
  - rewrite Z.compare_refl, Pos.compare_cont_refl. by destruct s.
Qed.

Lemma SFcompare_number f g :
  sf_number f -> sf_number g -> is_Some (SFcompare f g).
Proof. destruct f, g; simpl; try done; by eexists. Qed.

Lemma SFcompare_swap f g :
  sf_number f -> sf_number g ->
  SFcompare g f = CompOpp <$> SFcompare f g.
Proof.
  destruct f as [s|s| |s m e], g as [s'|s'| |s' m' e']; simpl; try done;
    intros Hf Hg; try (by destruct s); try (by destruct s');
    try (by destruct s, s').
  rewrite (Z.compare_antisym e e').
  change (Pos.compare_cont Eq m' m) with (Pos.compare_cont (CompOpp Eq) m' m).
  rewrite <- (Pos.compare_cont_antisym m m' Eq).
  destruct s, s'; simpl; try done;
    destruct (e ?= e'); simpl; try done;
    by destruct (Pos.compare_cont Eq m m').
Qed.

Lemma SFleb_trans f g h :
  SFleb f g = true -> SFleb g h = true -> SFleb f h = true.
Proof.
  unfold SFleb.
  destruct f as [s|s| |s m e], g as [s'|s'| |s' m' e'],
    h as [s''|s''| |s'' m'' e'']; simpl; try done;
    try (by destruct s; try destruct s'; try destruct s'').
  change (Pos.compare_cont Eq m m') with (m ?= m')%positive.
  change (Pos.compare_cont Eq m' m'') with (m' ?= m'')%positive.
  change (Pos.compare_cont Eq m m'') with (m ?= m'')%positive.
  destruct s, s', s''; simpl; try done;
    destruct (Z.compare_spec e e'), (Z.compare_spec e' e''),
      (Z.compare_spec e e''); simpl; try done; try lia;
    destruct (Pos.compare_spec m m'), (Pos.compare_spec m' m''),
      (Pos.compare_spec m m''); simpl; try done; try lia.
Qed.

Lemma is_nan_number x : is_nan x = false -> sf_number (Prim2SF x).
Proof.
  unfold is_nan. rewrite FloatAxioms.eqb_spec. unfold SFeqb.
  by destruct (Prim2SF x).
Qed.

Lemma leb_refl x : is_nan x = false -> PrimFloat.leb x x = true.
Proof.
  intros Hx. rewrite FloatAxioms.leb_spec. unfold SFleb.
  by rewrite (SFcompare_refl _ (is_nan_number x Hx)).
Qed.

Lemma leb_trans x y z :
  PrimFloat.leb x y = true -> PrimFloat.leb y z = true ->
  PrimFloat.leb x z = true.
Proof. rewrite !FloatAxioms.leb_spec. apply SFleb_trans. Qed.

Lemma ltb_leb x y : PrimFloat.ltb x y = true -> PrimFloat.leb x y = true.
Proof.
  rewrite FloatAxioms.ltb_spec, FloatAxioms.leb_spec. unfold SFltb, SFleb.
  by destruct (SFcompare _ _) as [[]|].
Qed.

Lemma not_ltb_leb x y :
  is_nan x = false -> is_nan y = false ->
  PrimFloat.ltb x y = false -> PrimFloat.leb y x = true.
Proof.
  intros Hx Hy.
  rewrite FloatAxioms.ltb_spec, FloatAxioms.leb_spec. unfold SFltb, SFleb.
  rewrite (SFcompare_swap _ _ (is_nan_number x Hx) (is_nan_number y Hy)).
  destruct (SFcompare_number _ _ (is_nan_number x Hx) (is_nan_number y Hy))
    as [c ->].
  by destruct c.
Qed.

(** [fmax] and [fmin] of two numbers are one of them, and bound both. *)
Lemma fmax_bounds x y :
  is_nan x = false -> is_nan y = false ->
  is_nan (fmax x y) = false
  /\ PrimFloat.leb x (fmax x y) = true
  /\ PrimFloat.leb y (fmax x y) = true.
Proof.
  intros Hx Hy. unfold fmax. rewrite Hx, Hy.
  destruct (PrimFloat.ltb x y) eqn:Hlt.
  - auto using ltb_leb, leb_refl.
  - auto using not_ltb_leb, leb_refl.
Qed.

Lemma fmin_bounds x y :
  is_nan x = false -> is_nan y = false ->
  is_nan (fmin x y) = false
  /\ PrimFloat.leb (fmin x y) x = true
  /\ PrimFloat.leb (fmin x y) y = true.
Proof.
  intros Hx Hy. unfold fmin. rewrite Hx, Hy.
  destruct (PrimFloat.ltb y x) eqn:Hlt.
  - auto using ltb_leb, leb_refl.
  - auto using not_ltb_leb, leb_refl.
Qed.

Lemma fmax_lub x y z :
  PrimFloat.leb x z = true -> PrimFloat.leb y z = true ->
  PrimFloat.leb (fmax x y) z = true.
Proof.
  intros Hx Hy. unfold fmax.
  by destruct (is_nan x), (is_nan y), (PrimFloat.ltb x y).
Qed.

Lemma fmin_glb x y z :
  PrimFloat.leb z x = true -> PrimFloat.leb z y = true ->
  PrimFloat.leb z (fmin x y) = true.
Proof.
  intros Hx Hy. unfold fmin.
  by destruct (is_nan x), (is_nan y), (PrimFloat.ltb y x).
Qed.

End FloatOrder.

(** C10.  [calculate] returns a frame in which every row has [ha_low] at
    or below [ha_open], [ha_close] and the raw low, and [ha_high] at or
    above [ha_open], [ha_close] and the raw high: over rational prices,
    and over binary64 prices in every row whose high, low, [ha_open] and
    [ha_close] are numbers (not NaN). *)
Theorem smoothed_range :
  (forall df : DataFrame Q,
     exists out,
       calculate df = Some out
       /\ forall (i : nat) (b : Bar Q) (r : HA Q),
            bars df !! i = Some b ->
            smoothed out !! i = Some r ->
            (ha_low r <= Qmin (Qmin (ha_open r) (ha_close r)) (low b))%Q
            /\ (Qmax (Qmax (ha_open r) (ha_close r)) (high b) <= ha_high r)%Q)
  /\ (forall df : DataFrame float,
        exists out,
          calculate df = Some out
          /\ forall (i : nat) (b : Bar float) (r : HA float),
               bars df !! i = Some b ->
               smoothed out !! i = Some r ->
               is_nan (high b) = false -> is_nan (low b) = false ->
               is_nan (ha_open r) = false -> is_nan (ha_close r) = false ->
               PrimFloat.leb (ha_low r)
                 (fmin (fmin (ha_open r) (ha_close r)) (low b)) = true
               /\ PrimFloat.leb (fmax (fmax (ha_open r) (ha_close r)) (high b))
                    (ha_high r) = true).
Proof.
  split; intros df; destruct (calculate_total df) as [out Hcalc];
    exists out; (split; [done|]); intros i b r Hb Hr.
  - destruct (smoothed_lookup df out i b Hcalc Hb) as [o Ho].
    rewrite Hr in Ho. injection Ho as ->. simpl.
    apply (range_of_three Qle (fun _ => True) Qmax Qmin); try done.
    + apply Qle_trans.
    + intros; apply Q.le_max_l.
    + intros; apply Q.le_max_r.
    + apply Q.max_lub.
    + intros; apply Q.le_min_l.
    + intros; apply Q.le_min_r.
    + intros ???; apply Q.min_glb.
  - intros Hh Hl Hopen Hclose.
    destruct (smoothed_lookup df out i b Hcalc Hb) as [o Ho].
    rewrite Hr in Ho. injection Ho as ->. simpl in *.
    apply (range_of_three (fun x y => PrimFloat.leb x y = true)
             (fun x => is_nan x = false) fmax fmin); try done.
    + apply leb_trans.
    + intros; by apply fmax_bounds.
    + intros; by apply fmax_bounds.
    + intros; by apply fmax_bounds.
    + apply fmax_lub.
    + intros; by apply fmin_bounds.
    + intros; by apply fmin_bounds.
    + intros; by apply fmin_bounds.
    + apply fmin_glb.
Qed.

(** ** The signal evaluator *)

Section EvaluatorFacts.
Context {F : Type} `{Number F}.
Variable str_float : F -> string.
Variable ib : Upstream F.
Variable now : DateTime.
Variable self : IBKRScanner F.
Implicit Types (df : DataFrame F) (b : Bar F) (contract : Contract).

Lemma bars_select (p : Bar F -> bool) df :
  bars (select p df) = List.filter p (bars df).
Proof.
  destruct df as [rows|rows]; simpl; [done|].
  induction rows as [|[b r] rows IH]; simpl; [done|].
  destruct (p b); simpl; [f_equal|]; apply IH.
Qed.

Lemma filter_cons_nonempty {A} (p : A -> bool) (l : list A) x xs :
  List.filter p l = x :: xs -> l <> [].
Proof. by destruct l. Qed.

(** [is_bullish] at index 0 of what [calculate] returns compares the mean
    of the first row with its open. *)
Lemma is_bullish_calculate df out b bs :
  bars df = b :: bs -> calculate df = Some out ->
  is_bullish out 0 = Some (ngt (ha_close_of b) (open b)).
Proof.
  intros Hbars Hcalc.
  destruct (calculate_rows df b bs Hbars) as (opens & Hlen & Hhd & _ & Hout).
  rewrite Hcalc in Hout. injection Hout as ->.
  unfold len in Hlen. rewrite Hbars in *.
  destruct opens as [|o opens]; [done|]. injection Hhd as ->.
  reflexivity.
Qed.

(** With a bar of the session in the frame, [_analyze_first_candle]
    returns the classification and the volume of the first such bar. *)
Lemma analyze_session df b rest :
  bars (today_df now df) = b :: rest ->
  _analyze_first_candle now self df
  = Some (if detect_ha_candle (settings self)
          then ngt (ha_close_of b) (open b) else false,
          ngt (close b) (open b), volume b).
Proof.
  intros Htoday. unfold _analyze_first_candle.
  assert (empty df = false) as ->.
  { apply empty_false. unfold today_df in Htoday.
    rewrite bars_select in Htoday. by eapply filter_cons_nonempty. }
  assert (empty (today_df now df) = false) as ->
    by (apply empty_false; by rewrite Htoday).
  rewrite Htoday. cbn [iloc length]. simpl.
  destruct (detect_ha_candle (settings self)); [|done].
  destruct (calculate_total (today_df now df)) as [out Hout].
  rewrite Hout. simpl.
  by rewrite (is_bullish_calculate _ _ _ _ Htoday Hout).
Qed.

(** Without one, it returns the triple [(False, False, 0)]. *)
Lemma analyze_no_session df :
  bars (today_df now df) = [] ->
  _analyze_first_candle now self df = Some (false, false, 0).
Proof.
  intros Htoday. unfold _analyze_first_candle.
  destruct (empty df); [done|].
  by rewrite (proj2 (empty_true _) Htoday).
Qed.

(** The nested conditionals of "Check if any condition is met", as a
    table. *)
Lemma any_condition_met_table (ha_bullish normal_bullish : bool) :
  any_condition_met self ha_bullish normal_bullish
  = match detect_ha_candle (settings self),
          detect_normal_candle (settings self) with
    | true, true => ha_bullish || normal_bullish
    | true, false => ha_bullish
    | false, true => normal_bullish
    | false, false => true
    end.
Proof.
  unfold any_condition_met, ha_check_rejects, normal_check_rejects.
  by destruct (detect_ha_candle (settings self)),
    (detect_normal_candle (settings self)), ha_bullish, normal_bullish.
Qed.

Lemma list_end_cases {A} (l : list A) :
  l <> [] ->
  (exists x, l = [x]) \/ (exists pre x y, l = pre ++ [x; y]).
Proof.
  destruct l as [|y l' _] using rev_ind; [done|]. intros _.
  destruct l' as [|x pre _] using rev_ind.
  - left. by exists y.
  - right. exists pre, x, y. by rewrite <- app_assoc.
Qed.

(** "Calculate change percent" on a frame of one row, and on a frame of two
    rows or more: the reference close is the only close, or the close of the
    second-to-last row; the last price is the quote's, or else the close of
    the last row. *)
Lemma calc_change_percent_single df l (mkt_data : gmap string F) :
  bars df = [l] ->
  calc_change_percent df mkt_data
  = let last_price := default (close l) (mkt_data !! "last_price") in
    Some (if ngt (close l) (of_int 0)
          then nmul (ndiv (nsub last_price (close l)) (close l)) (of_int 100)
          else of_int 0, last_price).
Proof.
  intros Hbars. unfold calc_change_percent.
  rewrite (proj2 (empty_false df)) by by rewrite Hbars.
  unfold len. rewrite Hbars. reflexivity.
Qed.

Lemma calc_change_percent_many df pre p l (mkt_data : gmap string F) :
  bars df = pre ++ [p; l] ->
  calc_change_percent df mkt_data
  = let last_price := default (close l) (mkt_data !! "last_price") in
    Some (if ngt (close p) (of_int 0)
          then nmul (ndiv (nsub last_price (close p)) (close p)) (of_int 100)
          else of_int 0, last_price).
Proof.
  intros Hbars. unfold calc_change_percent.
  rewrite (proj2 (empty_false df)) by (rewrite Hbars; by destruct pre).
  unfold len. rewrite Hbars, fmap_app, length_app.
  cbn [negb fmap list_fmap length].
  rewrite decide_True by lia.
  rewrite iloc_second_last. cbn [mbind option_bind].
  rewrite (app_assoc _ [close p] [close l]), iloc_last.
  reflexivity.
Qed.

Lemma calc_change_percent_total df (mkt_data : gmap string F) :
  exists change_percent last_price,
    calc_change_percent df mkt_data = Some (change_percent, last_price).
Proof.
  destruct (bars df) as [|b bs] eqn:Hbars.
  - unfold calc_change_percent.
    rewrite (proj2 (empty_true df) Hbars). by eexists _, _.
  - destruct (list_end_cases (bars df)) as [[l Hl]|(pre & p & l & Hl)];
      [by rewrite Hbars| |].
    + rewrite (calc_change_percent_single _ _ _ Hl). by eexists _, _.
    + rewrite (calc_change_percent_many _ _ _ _ _ Hl). by eexists _, _.
Qed.

(** [_scan_stock] once the first candle is analysed: the volume gate, the
    signal check, then the record. *)
Lemma scan_stock_analysed contract
    ha_bullish normal_bullish first_candle_volume :
  let df := _get_historical_bars ib self contract in
  bars df <> [] ->
  _analyze_first_candle now self df
  = Some (ha_bullish, normal_bullish, first_candle_volume) ->
  exists change_percent last_price,
    calc_change_percent df (_get_market_data ib self contract)
    = Some (change_percent, last_price)
    /\ _scan_stock str_float ib now self contract
       = if first_candle_volume <? min_volume (settings self) then None
         else if any_condition_met self ha_bullish normal_bullish then
           let mkt_data := _get_market_data ib self contract in
           Some (ScanResult.mk (symbol contract)
                   (default last_price (mkt_data !! "last_price"))
                   change_percent
                   (default (of_int 0) (mkt_data !! "bid"))
                   (default (of_int 0) (mkt_data !! "ask"))
                   (default (of_int 0)
                      (_get_fundamental_data self contract !! "market_cap"))
                   (default (of_int 0) (mkt_data !! "volume"))
                   ha_bullish normal_bullish first_candle_volume
                   now (params_string str_float self))
         else None.
Proof.
  intros df Hne Han.
  destruct (calc_change_percent_total df (_get_market_data ib self contract))
    as (cp & lp & Hcp).
  exists cp, lp. split; [done|].
  unfold _scan_stock, scan_stock_try. fold df.
  rewrite (proj2 (empty_false df) Hne), Han. cbn [mbind option_bind].
  destruct (first_candle_volume <? min_volume (settings self)); [done|].
  destruct (any_condition_met self ha_bullish normal_bullish); [|done].
  cbn [negb]. by rewrite Hcp.
Qed.

(** What a returned record tells about the run of [_scan_stock]. *)
Lemma scan_stock_Some contract result :
  _scan_stock str_float ib now self contract = Some result ->
  let df := _get_historical_bars ib self contract in
  let mkt_data := _get_market_data ib self contract in
  exists ha_bullish normal_bullish first_candle_volume
         change_percent last_price,
    bars df <> []
    /\ _analyze_first_candle now self df
       = Some (ha_bullish, normal_bullish, first_candle_volume)
    /\ min_volume (settings self) <= first_candle_volume
    /\ any_condition_met self ha_bullish normal_bullish = true
    /\ calc_change_percent df mkt_data = Some (change_percent, last_price)
    /\ ScanResult.change_percent result = change_percent
    /\ ScanResult.ha_bullish result = ha_bullish
    /\ ScanResult.normal_bullish result = normal_bullish
    /\ ScanResult.first_candle_volume result = first_candle_volume.
Proof.
  intros Hres df mkt_data.
  destruct (bars df) as [|b0 bs] eqn:Hbars.
  { unfold _scan_stock, scan_stock_try in Hres. fold df in Hres.
    by rewrite (proj2 (empty_true df) Hbars) in Hres. }
  destruct (_analyze_first_candle now self df) as [[[hb nb] v]|] eqn:Han.
  - destruct (scan_stock_analysed contract hb nb v) as (cp & lp & Hcp & Heq);
      [fold df; by rewrite Hbars|done|].
    rewrite Hres in Heq.
    destruct (Z.ltb_spec v (min_volume (settings self))); [done|].
    destruct (any_condition_met self hb nb) eqn:Hmet; [|done].
    injection Heq as ->. by exists hb, nb, v, cp, lp.
  - unfold _scan_stock, scan_stock_try in Hres. fold df in Hres.
    rewrite Han in Hres. by destruct (empty df).
Qed.


(** C1, as the code has it.  With a signal toggle enabled, the nested
    conditionals of [_scan_stock] let an instrument through exactly when an
    enabled signal is bullish; with exactly one toggle enabled this is the
    rule of the specification. *)
Theorem any_enabled_signal_bullish (ha_bullish normal_bullish : bool) :
  let detect_ha := detect_ha_candle (settings self) in
  let detect_normal := detect_normal_candle (settings self) in
  (detect_ha || detect_normal = true ->
   any_condition_met self ha_bullish normal_bullish
   = (detect_ha && ha_bullish) || (detect_normal && normal_bullish))
  /\ (xorb detect_ha detect_normal = true ->
      any_condition_met self ha_bullish normal_bullish
      = spec_qualifies detect_ha detect_normal ha_bullish normal_bullish).
Proof.
  intros detect_ha detect_normal. rewrite any_condition_met_table.
  subst detect_ha detect_normal. unfold spec_qualifies.
  by destruct (detect_ha_candle (settings self)),
    (detect_normal_candle (settings self)), ha_bullish, normal_bullish.
Qed.

(** C5.  When the first bar of the session has a volume below
    [min_volume], [_scan_stock] returns [None], whatever the candle and the
    toggles; when its volume is [min_volume] or more, the signal check alone
    decides, and the record returned carries that volume and the two
    classifications. *)
Theorem volume_gate contract b rest :
  bars (today_df now (_get_historical_bars ib self contract)) = b :: rest ->
  let ha_bullish :=
    if detect_ha_candle (settings self)
    then ngt (ha_close_of b) (open b) else false in
  let normal_bullish := ngt (close b) (open b) in
  (volume b < min_volume (settings self) ->
   _scan_stock str_float ib now self contract = None)
  /\ (min_volume (settings self) <= volume b ->
      if any_condition_met self ha_bullish normal_bullish then
        exists result,
          _scan_stock str_float ib now self contract = Some result
          /\ ScanResult.first_candle_volume result = volume b
          /\ ScanResult.ha_bullish result = ha_bullish
          /\ ScanResult.normal_bullish result = normal_bullish
      else _scan_stock str_float ib now self contract = None).
Proof.
  intros Htoday hb nb.
  destruct (scan_stock_analysed contract hb nb (volume b))
    as (cp & lp & _ & ->).
  { unfold today_df in Htoday. rewrite bars_select in Htoday.
    by eapply filter_cons_nonempty. }
  { by apply analyze_session with rest. }
  split; intros Hvol.
  - by rewrite (proj2 (Z.ltb_lt _ _) Hvol).
  - rewrite (proj2 (Z.ltb_ge _ _) Hvol).
    destruct (any_condition_met self hb nb); [|done]. by eexists.
Qed.

(** The change percent of a returned record: the formula on the close of
    the second-to-last row (of the only row, in a frame of one) and on the
    last price, or 0 when that close is not above 0. *)
Lemma change_percent_of_result contract result :
  _scan_stock str_float ib now self contract = Some result ->
  let df := _get_historical_bars ib self contract in
  let mkt_data := _get_market_data ib self contract in
  let formula prev_close last_price :=
    if ngt prev_close (of_int 0)
    then nmul (ndiv (nsub last_price prev_close) prev_close) (of_int 100)
    else of_int 0 in
  (forall l, bars df = [l] ->
     ScanResult.change_percent result
     = formula (close l) (default (close l) (mkt_data !! "last_price")))
  /\ (forall pre p l, bars df = pre ++ [p; l] ->
       ScanResult.change_percent result
       = formula (close p) (default (close l) (mkt_data !! "last_price"))).
Proof.
  intros Hres df mkt_data formula.
  destruct (scan_stock_Some _ _ Hres)
    as (hb & nb & v & cp & lp & _ & _ & _ & _ & Hcp & -> & _).
  fold df mkt_data in Hcp. split.
  - intros l Hl. rewrite (calc_change_percent_single _ _ _ Hl) in Hcp.
    simpl in Hcp. by injection Hcp as <- _.
  - intros pre p l Hl. rewrite (calc_change_percent_many _ _ _ _ _ Hl) in Hcp.
    simpl in Hcp. by injection Hcp as <- _.
Qed.

End EvaluatorFacts.

(** ** The scan orchestrator *)

Section OrchestratorFacts.
Context {F : Type} `{Number F}.
Variable str_float : F -> string.
Variable ib : Upstream F.
Implicit Types (self : IBKRScanner F) (now : DateTime).

(** [_scan_stock] reads the connection flag and the settings of the
    scanner, and the day of the clock; the time of day only stamps the
    record. *)
Lemma scan_stock_modulo_time now1 now2 self1 self2 contract :
  connected self1 = connected self2 ->
  settings self1 = settings self2 ->
  date now1 = date now2 ->
  without_scan_time <$> _scan_stock str_float ib now1 self1 contract
  = without_scan_time <$> _scan_stock str_float ib now2 self2 contract.
Proof.
  intros Hconn Hset Hdate.
  assert (_get_historical_bars ib self1 contract
          = _get_historical_bars ib self2 contract) as Hbars
    by (unfold _get_historical_bars; by rewrite Hconn, Hset).
  assert (forall df, _analyze_first_candle now1 self1 df
                     = _analyze_first_candle now2 self2 df) as Han
    by (intros df; unfold _analyze_first_candle, today_df;
        by rewrite Hset, Hdate).
  assert (_get_market_data ib self1 contract
          = _get_market_data ib self2 contract) as Hmkt
    by (unfold _get_market_data; by rewrite Hconn).
  assert (_get_fundamental_data self1 contract
          = _get_fundamental_data self2 contract) as Hfund
    by (unfold _get_fundamental_data; by rewrite Hconn).
  assert (forall hb nb, any_condition_met self1 hb nb
                        = any_condition_met self2 hb nb) as Hmet
    by (intros; by rewrite !any_condition_met_table, Hset).
  assert (params_string str_float self1 = params_string str_float self2)
    as Hpar by (unfold params_string; by rewrite Hset).
  unfold _scan_stock, scan_stock_try.
  rewrite Hbars, Hmkt, Hfund, Hpar, Hset.
  destruct (empty _); [done|]. rewrite Han.
  destruct (_analyze_first_candle now2 self2 _) as [[[hb nb] v]|]; [|done].
  cbn [mbind option_bind]. rewrite Hmet.
  destruct (v <? _); [done|].
  destruct (negb _); [done|].
  by destruct (calc_change_percent _ _) as [[cp lp]|].
Qed.

Lemma scan_loop_modulo_time now1 now2 self1 self2 (contracts : list Contract)
    (acc1 acc2 : gmap string (ScanResult F) * list (Event F)) :
  connected self1 = connected self2 ->
  settings self1 = settings self2 ->
  date now1 = date now2 ->
  without_scan_time <$> acc1.1 = without_scan_time <$> acc2.1 ->
  without_scan_time <$>
    (foldl (scan_step str_float ib now1 self1) acc1 contracts).1
  = without_scan_time <$>
      (foldl (scan_step str_float ib now2 self2) acc2 contracts).1.
Proof.
  intros Hconn Hset Hdate. revert acc1 acc2.
  induction contracts as [|contract contracts IH]; intros acc1 acc2 Hacc;
    [done|].
  simpl. apply IH. unfold scan_step.
  pose proof (scan_stock_modulo_time now1 now2 self1 self2 contract
                Hconn Hset Hdate) as Hstock.
  destruct (_scan_stock str_float ib now1 self1 contract) as [r1|],
    (_scan_stock str_float ib now2 self2 contract) as [r2|];
    simpl in *; try done.
  injection Hstock as Hsym; intros.
  rewrite !fmap_insert, Hsym, Hacc. f_equal.
  unfold without_scan_time. congruence.
Qed.

(** A connected scan: the history is archived, the live set replaced by
    what the loop collected, the callback called once if there is one. *)
Lemma run_scan_connected now self :
  connected self = true ->
  let self1 :=
    {| connected := connected self; settings := settings self;
       results := results self; scan_history := archive now self;
       _callback := _callback self |} in
  let loop := foldl (scan_step str_float ib now self1) (∅, [])
                (_fetch_stock_universe ib self1) in
  run_scan str_float ib now self
  = (loop.1,
     {| connected := connected self; settings := settings self;
        results := loop.1; scan_history := archive now self;
        _callback := _callback self |},
     [LogInfo "Starting scan..."] ++ loop.2
     ++ (if _callback self then [Callback loop.1] else [])
     ++ [LogInfo ("Scan complete. Found " +:+ pretty (size loop.1)
                  +:+ " stocks meeting criteria.")]).
Proof.
  intros Hconn self1 loop. subst loop self1. unfold run_scan.
  rewrite Hconn. cbv zeta.
  cbn [negb connected settings _callback results scan_history].
  by destruct (foldl _ _ _) as [new_results found].
Qed.

Lemma run_scan_connected_fields now self :
  connected self = true ->
  let out := run_scan str_float ib now self in
  exists self1,
    connected self1 = true
    /\ settings self1 = settings self
    /\ out.1.1 = (foldl (scan_step str_float ib now self1) (∅, [])
                   (_fetch_stock_universe ib self1)).1
    /\ connected out.1.2 = true
    /\ settings out.1.2 = settings self
    /\ results out.1.2 = out.1.1
    /\ scan_history out.1.2 = archive now self.
Proof.
  intros Hconn out. subst out.
  rewrite (run_scan_connected now self Hconn). cbv zeta.
  eexists. cbn [fst snd connected settings results scan_history].
  split; [|split; [|split; [reflexivity|]]]; done.
Qed.

Lemma fetch_stock_universe_reads self1 self2 :
  connected self1 = connected self2 ->
  settings self1 = settings self2 ->
  _fetch_stock_universe ib self1 = _fetch_stock_universe ib self2.
Proof.
  intros Hconn Hset. unfold _fetch_stock_universe. by rewrite Hconn, Hset.
Qed.

Lemma length_archive now self :
  length (archive now self)
  = (length (scan_history self) + archived (results self))%nat.
Proof.
  unfold archive, archived.
  destruct (size (results self) =? 0)%nat; simpl; [lia|].
  rewrite length_app. simpl. lia.
Qed.

(** C7.  Not connected, [run_scan] returns the empty dict, logs one error,
    calls no callback and leaves the scanner as it was. *)
Theorem run_scan_not_connected now self :
  connected self = false ->
  run_scan str_float ib now self
  = (∅, self, [LogError "Not connected to IBKR TWS"]).
Proof. intros Hconn. unfold run_scan. by rewrite Hconn. Qed.

(** C4, as the code has it.  Two scans in a row, connected, on the same
    day and with the same answers from TWS, return the live sets they
    leave, equal up to [scan_time]; each of them appends to the history an
    entry for the live set it finds, when that set has an entry: the set
    from before the first scan, and the set the first scan leaves. *)
Theorem run_scan_twice now1 now2 self :
  connected self = true ->
  date now1 = date now2 ->
  let run1 := run_scan str_float ib now1 self in
  let self1 := run1.1.2 in
  let run2 := run_scan str_float ib now2 self1 in
  let self2 := run2.1.2 in
  run1.1.1 = results self1
  /\ run2.1.1 = results self2
  /\ without_scan_time <$> results self2 = without_scan_time <$> results self1
  /\ scan_history self1 = archive now1 self
  /\ scan_history self2 = archive now2 self1
  /\ length (scan_history self2)
     = (length (scan_history self) + archived (results self)
        + archived (results self1))%nat.
Proof.
  intros Hconn Hdate run1 self1 run2 self2.
  destruct (run_scan_connected_fields now1 self Hconn)
    as (sa & Hca & Hsa & Hnew1 & Hconn1 & Hset1 & Hres1 & Hhist1).
  fold run1 self1 in Hnew1, Hconn1, Hset1, Hres1, Hhist1.
  destruct (run_scan_connected_fields now2 self1 Hconn1)
    as (sb & Hcb & Hsb & Hnew2 & _ & _ & Hres2 & Hhist2).
  fold run2 self2 in Hnew2, Hres2, Hhist2.
  split; [done|]. split; [done|].
  split; [|split; [done|split; [done|]]].
  - rewrite Hres2, Hres1, Hnew2, Hnew1.
    rewrite (fetch_stock_universe_reads sb sa) by congruence.
    apply scan_loop_modulo_time; congruence.
  - by rewrite Hhist2, length_archive, Hhist1, length_archive.
Qed.

End OrchestratorFacts.

(** ** The code on concrete inputs *)

(** C1 fails.  With both toggles enabled, a first candle that is bullish
    as a normal candle only passes the nested conditionals, and
    [_scan_stock] returns a record for it; the rule of the specification
    turns it down.  With both toggles disabled the nested conditionals
    reject nothing, where the rule of the specification rejects all. *)
Lemma one_bullish_signal_qualifies :
  any_condition_met both_signals false true = true
  /\ spec_qualifies true true false true = false
  /\ (exists result,
        _scan_stock no_repr (tws_one long_wick 10.5%float) day1 both_signals AAA
        = Some result
        /\ ScanResult.ha_bullish result = false
        /\ ScanResult.normal_bullish result = true)
  /\ any_condition_met no_filter false false = true
  /\ spec_qualifies false false false false = false.
Proof.
  split; [reflexivity|]. split; [reflexivity|].
  split; [|split; reflexivity].
  eexists. split; [vm_compute; reflexivity|]. split; reflexivity.
Qed.


(** C4 fails.  Starting from a live set with an entry, two scans that
    each find the stock append two entries to the history. *)
Lemma two_scans_two_entries :
  size (results normal_only_live) = 1%nat
  /\ size (results
             (run_scan no_repr (tws_one two_bars_f 7.6%float) day1
                normal_only_live).1.2) = 1%nat
  /\ length (scan_history
               (run_scan no_repr (tws_one two_bars_f 7.6%float) day1
                  (run_scan no_repr (tws_one two_bars_f 7.6%float) day1
                     normal_only_live).1.2).1.2)
     = (length (scan_history normal_only_live) + 2)%nat.
Proof. vm_compute. repeat split. Qed.

(** C6 fails.  For closes of 10 and 8 and a last trade at 7.6, the change
    percent that the code computes in binary64 is not -24.0. *)
Lemma change_percent_not_minus_24 :
  exists result,
    _scan_stock no_repr (tws_one two_bars_f 7.6%float) day1 normal_only AAA
    = Some result
    /\ ScanResult.change_percent result = (-24.000000000000004)%float
    /\ ScanResult.change_percent result <> (-24)%float.
Proof.
  eexists. split; [vm_compute; reflexivity|]. split; [reflexivity|].
  simpl. intros Heq.
  apply (f_equal (PrimFloat.eqb (-24)%float)) in Heq.
  vm_compute in Heq. discriminate.
Qed.

(** C6, as the code has it.  The change percent of a returned record is
    (last price - previous close) / previous close * 100 in the arithmetic
    of the code, and 0 when the previous close is not above 0; the
    previous close is the close of the second-to-last row of the fetched
    frame, or of its only row, and the last price is that of the quote,
    or else the close of the last row.  For closes of 10 and 8 and a last
    trade at 7.6 this is -24.000000000000004 in binary64 and -24 in exact
    arithmetic. *)
Theorem change_percent_formula :
  (forall F (HF : Number F) str_float ib now self contract result,
     _scan_stock str_float ib now self contract = Some result ->
     let df := _get_historical_bars ib self contract in
     let mkt_data := _get_market_data ib self contract in
     let formula (prev_close last_price : F) :=
       if ngt prev_close (of_int 0)
       then nmul (ndiv (nsub last_price prev_close) prev_close) (of_int 100)
       else of_int 0 in
     (forall l, bars df = [l] ->
        ScanResult.change_percent result
        = formula (close l) (default (close l) (mkt_data !! "last_price")))
     /\ (forall pre p l, bars df = pre ++ [p; l] ->
          ScanResult.change_percent result
          = formula (close p) (default (close l) (mkt_data !! "last_price"))))
  /\ (exists result,
        _scan_stock no_repr (tws_one two_bars_f 7.6%float) day1 normal_only AAA
        = Some result
        /\ ScanResult.change_percent result = (-24.000000000000004)%float)
  /\ (exists result,
        _scan_stock no_repr (tws_one two_bars_q (76 # 10)%Q) day1
          normal_only_q AAA
        = Some result
        /\ (ScanResult.change_percent result == -24)%Q).
Proof.
  split; [|split].
  - intros F HF str_float ib now self contract result Hres.
    by apply change_percent_of_result with str_float now.
  - eexists. split; [vm_compute; reflexivity|]. reflexivity.
  - eexists. split; [vm_compute; reflexivity|]. reflexivity.
Qed.

(** ** The theorems at work *)

(** Both toggles enabled and the normal candle alone bullish; the normal
    toggle alone enabled. *)
Lemma any_enabled_signal_bullish_witness :
  any_condition_met both_signals false true
  = (true && false) || (true && true)
  /\ any_condition_met normal_only false true
     = spec_qualifies false true false true.
Proof.
  split.
  - apply (proj1 (any_enabled_signal_bullish both_signals false true)).
    reflexivity.
  - apply (proj2 (any_enabled_signal_bullish normal_only false true)).
    reflexivity.
Defined.


(** The second row of a frame of two rows. *)
Lemma calculate_smoothed_witness :
  exists out r p,
    calculate (OHLCV two_bars_q) = Some out
    /\ smoothed out !! 1%nat = Some r
    /\ smoothed out !! 0%nat = Some p
    /\ ha_open r = ((ha_open p + ha_close p) / 2)%Q
    /\ ha_high r = Qmax (Qmax 9 (ha_open r)) (ha_close r).
Proof.
  destruct (calculate_smoothed (OHLCV two_bars_q))
    as (out & Hout & _ & _ & _ & Hrows).
  destruct (Hrows 1%nat (bar_at 1 9 9 8 8 1000)%Q eq_refl)
    as (r & Hr & _ & (p & Hp & Hopen) & Hhigh & _).
  exists out, r, p. repeat split; assumption.
Defined.

(** The second row of a frame of two rows, in either arithmetic. *)
Lemma smoothed_range_witness :
  (exists out r,
     calculate (OHLCV two_bars_q) = Some out
     /\ smoothed out !! 1%nat = Some r
     /\ (ha_low r <= Qmin (Qmin (ha_open r) (ha_close r)) 8)%Q
     /\ (Qmax (Qmax (ha_open r) (ha_close r)) 9 <= ha_high r)%Q)
  /\ (exists out r,
        calculate (OHLCV two_bars_f) = Some out
        /\ smoothed out !! 1%nat = Some r
        /\ PrimFloat.leb (ha_low r)
             (fmin (fmin (ha_open r) (ha_close r)) 8) = true
        /\ PrimFloat.leb (fmax (fmax (ha_open r) (ha_close r)) 9)
             (ha_high r) = true).
Proof.
  split.
  - destruct (proj1 smoothed_range (OHLCV two_bars_q)) as (out & Hout & Hrows).
    pose proof Hout as Hout'. vm_compute in Hout'. injection Hout' as <-.
    eexists _, _. split; [exact Hout|]. split; [reflexivity|].
    exact (Hrows 1%nat (bar_at 1 9 9 8 8 1000)%Q _ eq_refl eq_refl).
  - destruct (proj2 smoothed_range (OHLCV two_bars_f)) as (out & Hout & Hrows).
    pose proof Hout as Hout'. vm_compute in Hout'. injection Hout' as <-.
    eexists _, _. split; [exact Hout|]. split; [reflexivity|].
    exact (Hrows 1%nat (bar_at 1 9 9 8 8 1000)%float _ eq_refl eq_refl
             eq_refl eq_refl eq_refl eq_refl).
Defined.


(** The single bar of the specification's scenarios, with a volume of
    50000 and of 100000, under a minimum volume of 100000. *)
Lemma volume_gate_witness :
  _scan_stock no_repr (tws_one (single_bar 50000) 11%float) day1 normal_only AAA
  = None
  /\ exists result,
       _scan_stock no_repr (tws_one (single_bar 100000) 11%float) day1
         normal_only AAA = Some result
       /\ ScanResult.first_candle_volume result = 100000
       /\ ScanResult.ha_bullish result = false
       /\ ScanResult.normal_bullish result = true.
Proof.
  split.
  - apply (proj1 (volume_gate no_repr (tws_one (single_bar 50000) 11%float)
                    day1 normal_only AAA _ [] eq_refl)).
    reflexivity.
  - assert (min_volume (settings normal_only) <= 100000) as Hvol
      by discriminate.
    exact (proj2 (volume_gate no_repr (tws_one (single_bar 100000) 11%float)
                    day1 normal_only AAA _ [] eq_refl) Hvol).
Defined.

(** A scanner that is not connected keeps its live set. *)
Lemma run_scan_not_connected_witness :
  run_scan no_repr (tws_one two_bars_f 7.6%float) day1 offline
  = (∅, offline, [LogError "Not connected to IBKR TWS"]).
Proof. apply run_scan_not_connected. reflexivity. Defined.

(** Two scans a quarter of an hour apart, from a live set with an entry. *)
Lemma run_scan_twice_witness :
  without_scan_time <$>
    results (run_scan no_repr (tws_one two_bars_f 7.6%float) day1_later
               (run_scan no_repr (tws_one two_bars_f 7.6%float) day1
                  normal_only_live).1.2).1.2
  = without_scan_time <$>
      results (run_scan no_repr (tws_one two_bars_f 7.6%float) day1
                 normal_only_live).1.2
  /\ length (scan_history
               (run_scan no_repr (tws_one two_bars_f 7.6%float) day1_later
                  (run_scan no_repr (tws_one two_bars_f 7.6%float) day1
                     normal_only_live).1.2).1.2)
     = (length (scan_history normal_only_live) + archived old_live
        + archived (results
                      (run_scan no_repr (tws_one two_bars_f 7.6%float) day1
                         normal_only_live).1.2))%nat.
Proof.
  destruct (run_scan_twice no_repr (tws_one two_bars_f 7.6%float)
              day1 day1_later normal_only_live eq_refl eq_refl)
    as (_ & _ & Hlive & _ & _ & Hlen).
  split; [exact Hlive|exact Hlen].
Defined.

(** Closes of 10 and 8, last trade at 7.6. *)
Lemma change_percent_formula_witness :
  exists result,
    _scan_stock no_repr (tws_one two_bars_f 7.6%float) day1 normal_only AAA
    = Some result
    /\ ScanResult.change_percent result = ((7.6 - 10) / 10 * 100)%float.
Proof.
  eexists. split; [vm_compute; reflexivity|].
  refine (proj2 (proj1 change_percent_formula float _ no_repr
                   (tws_one two_bars_f 7.6%float) day1 normal_only AAA _ _)
            [] _ _ eq_refl).
  vm_compute. reflexivity.
Defined.

(** ** More on the scan *)

Section ScanFacts.
Context {F : Type} `{Number F}.
Variable str_float : F -> string.
Variable ib : Upstream F.
Variable now : DateTime.
Implicit Types (self : IBKRScanner F) (contract : Contract).

(** [_scan_stock] reads the connection flag and the settings only. *)
Lemma scan_stock_reads self1 self2 contract :
  connected self1 = connected self2 ->
  settings self1 = settings self2 ->
  _scan_stock str_float ib now self1 contract
  = _scan_stock str_float ib now self2 contract.
Proof.
  intros Hconn Hset.
  unfold _scan_stock, scan_stock_try, _get_historical_bars,
    _analyze_first_candle, _get_market_data, _get_fundamental_data,
    any_condition_met, ha_check_rejects, normal_check_rejects, params_string.
  by rewrite Hconn, Hset.
Qed.

(** The fields of a returned record that do not depend on the bars. *)
Lemma scan_stock_record self contract result :
  _scan_stock str_float ib now self contract = Some result ->
  ScanResult.symbol result = symbol contract
  /\ ScanResult.scan_time result = now
  /\ ScanResult.parameters_used result = params_string str_float self
  /\ ScanResult.market_cap result = of_int 0.
Proof.
  unfold _scan_stock, scan_stock_try. intros Hres.
  destruct (empty _); [done|].
  destruct (_analyze_first_candle _ _ _) as [[[hb nb] v]|]; [|done].
  cbn [mbind option_bind] in Hres.
  destruct (v <? _); [done|]. destruct (negb _); [done|].
  destruct (calc_change_percent _ _) as [[cp lp]|]; [|done].
  injection Hres as <-. cbn. repeat split.
  unfold _get_fundamental_data. destruct (negb (connected self)); [done|].
  by rewrite lookup_singleton_eq.
Qed.

(** What the loop over the contracts leaves under a symbol: the record
    of that symbol's contract, when the contract is in the universe and
    has one. *)
Lemma scan_loop_lookup self (contracts : list Contract)
    (acc : gmap string (ScanResult F) * list (Event F)) (s : string) :
  (foldl (scan_step str_float ib now self) acc contracts).1 !! s
  = if decide ({| symbol := s |} ∈ contracts) then
      match _scan_stock str_float ib now self {| symbol := s |} with
      | Some result => Some result
      | None => acc.1 !! s
      end
    else acc.1 !! s.
Proof.
  revert acc. induction contracts as [|[s'] contracts IH]; intros acc.
  - by rewrite decide_False by apply not_elem_of_nil.
  - cbn [foldl]. rewrite IH. clear IH.
    assert (forall result,
              _scan_stock str_float ib now self {| symbol := s' |} = Some result ->
              ScanResult.symbol result = s') as Hsym
      by (intros r Hr; by destruct (scan_stock_record _ _ _ Hr) as [-> _]).
    destruct (decide (s' = s)) as [->|Hne].
    + rewrite (decide_True (P := _ ∈ _ :: _)) by (apply elem_of_cons; by left).
      unfold scan_step.
      destruct (_scan_stock str_float ib now self {| symbol := s |})
        as [r|] eqn:Hr; [|by destruct (decide _)].
      cbn [fst]. rewrite (Hsym r eq_refl), lookup_insert_eq.
      by destruct (decide _).
    + assert ((scan_step str_float ib now self acc {| symbol := s' |}).1 !! s
              = acc.1 !! s) as ->.
      { unfold scan_step.
        destruct (_scan_stock str_float ib now self {| symbol := s' |})
          as [r|] eqn:Hr; [|done].
        cbn [fst]. by rewrite (Hsym r eq_refl), lookup_insert_ne. }
      destruct (decide ({| symbol := s |} ∈ contracts)) as [Hin|Hout].
      * by rewrite decide_True by (apply elem_of_cons; by right).
      * rewrite decide_False; [done|].
        intros [Heq|Hin]%elem_of_cons; [congruence|done].
Qed.

Lemma scan_loop_reads self1 self2 (contracts : list Contract)
    (acc : gmap string (ScanResult F) * list (Event F)) :
  connected self1 = connected self2 ->
  settings self1 = settings self2 ->
  foldl (scan_step str_float ib now self1) acc contracts
  = foldl (scan_step str_float ib now self2) acc contracts.
Proof.
  intros Hconn Hset. revert acc.
  induction contracts as [|c contracts IH]; intros acc; [done|].
  cbn [foldl]. rewrite IH. unfold scan_step.
  by rewrite (scan_stock_reads self1 self2).
Qed.

(** A connected scan returns what the loop collects over the fetched
    universe, and records what it logs on the way. *)
Lemma run_scan_loop self :
  connected self = true ->
  let loop := foldl (scan_step str_float ib now self) (∅, [])
                (_fetch_stock_universe ib self) in
  (run_scan str_float ib now self).1.1 = loop.1
  /\ results (run_scan str_float ib now self).1.2 = loop.1
  /\ (run_scan str_float ib now self).2
     = [LogInfo "Starting scan..."] ++ loop.2
       ++ (if _callback self then [Callback loop.1] else [])
       ++ [LogInfo ("Scan complete. Found " +:+ pretty (size loop.1)
                    +:+ " stocks meeting criteria.")].
Proof.
  intros Hconn loop. subst loop.
  rewrite (run_scan_connected str_float ib now self Hconn). cbv zeta.
  cbn [fst snd results].
  set (self1 := {| connected := connected self; settings := settings self;
                   results := results self;
                   scan_history := archive now self;
                   _callback := _callback self |}).
  rewrite (fetch_stock_universe_reads ib self1 self) by done.
  by rewrite (scan_loop_reads self1 self) by done.
Qed.

(** X1.  After a connected scan, the returned dict holds under a symbol
    the record that [_scan_stock] returns for the contract of that symbol,
    when that contract is in the fetched universe, and nothing otherwise. *)
Theorem live_set_lookup self (s : string) :
  connected self = true ->
  (run_scan str_float ib now self).1.1 !! s
  = if decide ({| symbol := s |} ∈ _fetch_stock_universe ib self)
    then _scan_stock str_float ib now self {| symbol := s |}
    else None.
Proof.
  intros Hconn.
  destruct (run_scan_loop self Hconn) as (-> & _).
  rewrite scan_loop_lookup. cbn [fst]. rewrite lookup_empty.
  destruct (decide _); [|done]. by destruct (_scan_stock _ _ _ _ _).
Qed.

(** An entry of the returned dict comes from [_scan_stock] on the
    contract of its key. *)
Lemma live_set_entry self (s : string) (result : ScanResult F) :
  (run_scan str_float ib now self).1.1 !! s = Some result ->
  connected self = true
  /\ _scan_stock str_float ib now self {| symbol := s |} = Some result.
Proof.
  intros Hentry. destruct (connected self) eqn:Hconn.
  - split; [done|]. destruct (run_scan_loop self Hconn) as (Hmap & _).
    rewrite Hmap, scan_loop_lookup in Hentry. cbn [fst] in Hentry.
    rewrite lookup_empty in Hentry.
    destruct (decide _); [|done].
    by destruct (_scan_stock _ _ _ _ _).
  - unfold run_scan in Hentry. rewrite Hconn in Hentry. done.
Qed.


(** With Heikin Ashi detection off, the first flag of the triple is
    False. *)
Lemma analyze_ha_off self (df : DataFrame F) ha_bullish normal_bullish v :
  _analyze_first_candle now self df = Some (ha_bullish, normal_bullish, v) ->
  detect_ha_candle (settings self) = false ->
  ha_bullish = false.
Proof.
  unfold _analyze_first_candle. intros Han Hoff. rewrite Hoff in Han.
  destruct (empty df); [congruence|].
  destruct (empty _); [congruence|].
  destruct (iloc _ 0); [|done]. cbn in Han. congruence.
Qed.


(** X4.  A scan never drops or rewrites a run of the history: the history
    before is a prefix of the history after, which is longer by one run at
    most; the run added holds the live set of before, which has an entry. *)
Theorem history_append_only self :
  let self' := (run_scan str_float ib now self).1.2 in
  exists added,
    get_previous_runs self' = get_previous_runs self ++ added
    /\ (length added <= 1)%nat
    /\ Forall (fun run => run_results run = results self
                          /\ results self <> ∅
                          /\ timestamp run = now
                          /\ connected self = true) added.
Proof.
  intros self'. subst self'. unfold get_previous_runs.
  destruct (connected self) eqn:Hconn.
  - destruct (run_scan_connected_fields str_float ib now self Hconn)
      as (_ & _ & _ & _ & _ & _ & _ & ->).
    unfold archive.
    destruct (size (results self) =? 0)%nat eqn:Hsize; cbn [negb].
    + exists []. rewrite app_nil_r. split; [done|]. split; [simpl; lia|done].
    + eexists [_]. split; [done|]. split; [simpl; lia|].
      constructor; [|done]. repeat split; try done.
      intros Hempty. rewrite Hempty, map_size_empty in Hsize. done.
  - unfold run_scan. rewrite Hconn. exists []. rewrite app_nil_r.
    split; [done|]. split; [simpl; lia|done].
Qed.

(** X5.  When the scanner request raises or finds no stock, a connected
    scan returns the empty dict and leaves the live set empty: what was
    live before is in the history only. *)
Theorem failed_universe_clears_live_set self :
  connected self = true ->
  reqScannerData ib (settings self) = None
  \/ reqScannerData ib (settings self) = Some [] ->
  (run_scan str_float ib now self).1.1 = ∅
  /\ results (run_scan str_float ib now self).1.2 = ∅
  /\ scan_history (run_scan str_float ib now self).1.2 = archive now self.
Proof.
  intros Hconn Hreq.
  destruct (run_scan_loop self Hconn) as (-> & -> & _).
  destruct (run_scan_connected_fields str_float ib now self Hconn)
    as (_ & _ & _ & _ & _ & _ & _ & ->).
  assert (_fetch_stock_universe ib self = []) as ->; [|done].
  unfold _fetch_stock_universe. rewrite Hconn.
  by destruct Hreq as [-> | ->].
Qed.

Lemma scan_loop_no_callback self (contracts : list Contract)
    (acc : gmap string (ScanResult F) * list (Event F)) :
  omap callback_arg
    (foldl (scan_step str_float ib now self) acc contracts).2
  = omap callback_arg acc.2.
Proof.
  revert acc. induction contracts as [|c contracts IH]; intros acc; [done|].
  cbn [foldl]. rewrite IH. unfold scan_step.
  destruct (_scan_stock _ _ _ _ _); [|done].
  cbn [snd]. by rewrite omap_app, app_nil_r.
Qed.

(** X6.  A scan calls the callback once, with the dict that it returns,
    when the scanner is connected and has a callback, and never
    otherwise. *)
Theorem callback_once self :
  omap callback_arg (run_scan str_float ib now self).2
  = if connected self && _callback self
    then [(run_scan str_float ib now self).1.1] else [].
Proof.
  destruct (connected self) eqn:Hconn.
  - destruct (run_scan_loop self Hconn) as (-> & _ & ->).
    rewrite !omap_app, scan_loop_no_callback.
    by destruct (_callback self).
  - unfold run_scan. by rewrite Hconn.
Qed.

(** The last price of "Calculate change percent" is the quote's, or the
    close of the last row. *)
Lemma calc_last_price (df : DataFrame F) pre l (mkt_data : gmap string F)
    change_percent last_price :
  bars df = pre ++ [l] ->
  calc_change_percent df mkt_data = Some (change_percent, last_price) ->
  last_price = default (close l) (mkt_data !! "last_price").
Proof.
  intros Hbars Hcalc.
  destruct pre as [|p pre' _] using rev_ind.
  - rewrite (calc_change_percent_single df l mkt_data Hbars) in Hcalc.
    cbv zeta in Hcalc. congruence.
  - rewrite <- app_assoc in Hbars.
    rewrite (calc_change_percent_many df pre' p l mkt_data Hbars) in Hcalc.
    cbv zeta in Hcalc. congruence.
Qed.

(** The whole of a returned record. *)
Lemma scan_stock_fields self contract result :
  _scan_stock str_float ib now self contract = Some result ->
  let mkt_data := _get_market_data ib self contract in
  connected self = true
  /\ exists last_price,
       (forall pre l, bars (_get_historical_bars ib self contract) = pre ++ [l] ->
          last_price = default (close l) (mkt_data !! "last_price"))
       /\ ScanResult.last_price result
          = default last_price (mkt_data !! "last_price")
       /\ ScanResult.bid result = default (of_int 0) (mkt_data !! "bid")
       /\ ScanResult.ask result = default (of_int 0) (mkt_data !! "ask")
       /\ ScanResult.volume result
          = default (of_int 0) (mkt_data !! "volume").
Proof.
  intros Hscan mkt_data.
  destruct (scan_stock_Some _ _ _ _ _ _ Hscan)
    as (hb & nb & v & cp & lp & Hne & Han & Hvol & Hmet & Hcp & _).
  split.
  { destruct (connected self) eqn:Hconn; [done|].
    unfold _get_historical_bars in Hne. by rewrite Hconn in Hne. }
  destruct (scan_stock_analysed str_float ib now self contract hb nb v Hne Han)
    as (cp' & lp' & Hcp' & Heq).
  rewrite Hscan in Heq.
  rewrite (proj2 (Z.ltb_ge _ _) Hvol), Hmet in Heq.
  injection Heq as ->. exists lp'. cbn. split; [|done].
  intros pre l Hbars. by eapply calc_last_price.
Qed.

(** X7.  The price fields of a returned record come from the ticker: a
    field that is zero gives the ticker's close for the last price and 0
    for bid, ask and volume; when the market data request raises, the last
    price is the close of the last bar and bid, ask and volume are 0. *)
Theorem quote_fallback self contract result pre l :
  _scan_stock str_float ib now self contract = Some result ->
  bars (_get_historical_bars ib self contract) = pre ++ [l] ->
  match reqMktData ib contract with
  | Some ticker =>
      ScanResult.last_price result
      = (if truthy (Ticker.last ticker) then Ticker.last ticker
         else Ticker.close ticker)
      /\ ScanResult.bid result
         = (if truthy (Ticker.bid ticker) then Ticker.bid ticker
            else of_int 0)
      /\ ScanResult.ask result
         = (if truthy (Ticker.ask ticker) then Ticker.ask ticker
            else of_int 0)
      /\ ScanResult.volume result
         = (if truthy (Ticker.volume ticker) then Ticker.volume ticker
            else of_int 0)
  | None =>
      ScanResult.last_price result = close l
      /\ ScanResult.bid result = of_int 0
      /\ ScanResult.ask result = of_int 0
      /\ ScanResult.volume result = of_int 0
  end.
Proof.
  intros Hscan Hbars.
  destruct (scan_stock_fields self contract result Hscan)
    as (Hconn & lp & Hlp & -> & -> & -> & ->).
  rewrite (Hlp pre l Hbars). unfold _get_market_data. rewrite Hconn.
  cbn [negb]. destruct (reqMktData ib contract) as [ticker|].
  - by simplify_map_eq.
  - by rewrite !lookup_empty.
Qed.

(** X8.  Under the same settings and on the same day, two answers of TWS
    whose bars of the session start with the same bar give the same
    verdict on a stock: a record in both cases or in none, with the same
    flags and first candle volume, whatever the later bars, the bars of
    other days and the quotes are. *)
Theorem first_candle_settles (ib' : Upstream F) self contract b rest rest' :
  bars (today_df now (_get_historical_bars ib self contract)) = b :: rest ->
  bars (today_df now (_get_historical_bars ib' self contract)) = b :: rest' ->
  match _scan_stock str_float ib now self contract,
        _scan_stock str_float ib' now self contract with
  | Some r, Some r' =>
      ScanResult.ha_bullish r = ScanResult.ha_bullish r'
      /\ ScanResult.normal_bullish r = ScanResult.normal_bullish r'
      /\ ScanResult.first_candle_volume r = ScanResult.first_candle_volume r'
  | None, None => True
  | _, _ => False
  end.
Proof.
  intros Htoday Htoday'.
  pose proof (analyze_session now self _ _ _ Htoday) as Han.
  pose proof (analyze_session now self _ _ _ Htoday') as Han'.
  assert (bars (_get_historical_bars ib self contract) <> []) as Hne.
  { unfold today_df in Htoday. rewrite bars_select in Htoday.
    by eapply filter_cons_nonempty. }
  assert (bars (_get_historical_bars ib' self contract) <> []) as Hne'.
  { unfold today_df in Htoday'. rewrite bars_select in Htoday'.
    by eapply filter_cons_nonempty. }
  destruct (scan_stock_analysed str_float ib now self contract _ _ _ Hne Han)
    as (cp & lp & _ & ->).
  destruct (scan_stock_analysed str_float ib' now self contract _ _ _ Hne' Han')
    as (cp' & lp' & _ & ->).
  destruct (volume b <? min_volume (settings self)); [done|].
  by destruct (any_condition_met self _ _).
Qed.

End ScanFacts.

(** ** More on the candle transform *)

Section CandleFacts.
Context {F : Type} `{Number F}.
Implicit Types (df out : DataFrame F) (b : Bar F).

(** [calculate] reads the OHLCV columns only. *)
Lemma calculate_reads df df' :
  bars df = bars df' -> bars df <> [] -> calculate df = calculate df'.
Proof.
  intros Hbars Hne. unfold calculate, len.
  rewrite (proj2 (empty_false df) Hne).
  rewrite (proj2 (empty_false df')) by by rewrite <- Hbars.
  by rewrite Hbars.
Qed.

(** X9.  Calculating again on a frame that [calculate] returned gives that
    frame back: the Heikin Ashi columns are recomputed from the OHLC
    columns, never from the Heikin Ashi columns already there. *)
Theorem calculate_again df out :
  calculate df = Some out -> calculate out = Some out.
Proof.
  intros Hcalc. destruct (bars df) as [|b bs] eqn:Hbars.
  - pose proof Hcalc as Hcalc'. unfold calculate in Hcalc'.
    rewrite (proj2 (empty_true df) Hbars) in Hcalc'. congruence.
  - destruct (calculate_rows df b bs Hbars) as (opens & Hlen & _ & _ & Hout).
    assert (bars out = bars df) as Hsame.
    { rewrite Hcalc in Hout. injection Hout as ->. simpl.
      apply fst_ha_rows; [done|]. by rewrite length_fmap. }
    rewrite (calculate_reads out df), Hcalc; [done..|].
    by rewrite Hsame, Hbars.
Qed.

(** X10.  On a frame with Heikin Ashi columns and a row, [is_bullish]
    raises exactly for an index outside the frame, in either direction. *)
Theorem is_bullish_out_of_range df (index : Z) :
  bars df <> [] -> has_ha_columns df = true ->
  is_bullish df index = None
  <-> index < - Z.of_nat (len df) \/ Z.of_nat (len df) <= index.
Proof.
  intros Hne Hha. unfold is_bullish.
  rewrite (proj2 (empty_false df) Hne), Hha. cbn [orb negb].
  destruct df as [rows|rows]; [done|]. unfold len. cbn [bars smoothed].
  rewrite length_fmap.
  assert (length (ha_close <$> rows.*2) = length rows) as Hc
    by by rewrite !length_fmap.
  assert (length (ha_open <$> rows.*2) = length rows) as Ho
    by by rewrite !length_fmap.
  split.
  - intros Hnone.
    destruct (decide (index < - Z.of_nat (length rows)
                      \/ Z.of_nat (length rows) <= index)) as [|Hin];
      [done|exfalso].
    assert (exists j, (j < length rows)%nat
                 /\ forall (xs : list F), length xs = length rows ->
                      iloc xs index = xs !! j) as (j & Hj & Hiloc).
    { destruct (decide (index < 0)).
      - exists (Z.to_nat (index + Z.of_nat (length rows))). split; [lia|].
        intros xs Hl. rewrite iloc_neg by lia. by rewrite Hl.
      - exists (Z.to_nat index). split; [lia|].
        intros xs Hl. by rewrite iloc_nonneg by lia. }
    rewrite (Hiloc _ Hc), (Hiloc _ Ho) in Hnone.
    destruct (lookup_lt_is_Some_2 (ha_close <$> rows.*2) j) as [c Hcj];
      [lia|].
    destruct (lookup_lt_is_Some_2 (ha_open <$> rows.*2) j) as [o Hoj];
      [lia|].
    by rewrite Hcj, Hoj in Hnone.
  - intros Hout.
    rewrite (iloc_out_of_range (ha_close <$> rows.*2)) by by rewrite Hc.
    reflexivity.
Qed.

(** The first row of the result, and the step from a row to the next. *)
Lemma smoothed_first df out b bs :
  bars df = b :: bs -> calculate df = Some out ->
  smoothed out !! 0%nat = Some (ha_row b (open b) (ha_close_of b)).2.
Proof.
  intros Hbars Hcalc.
  destruct (calculate_rows df b bs Hbars) as (opens & Hlen & Hhd & _ & Hout).
  rewrite Hcalc in Hout. injection Hout as ->. simpl.
  rewrite list_lookup_fmap.
  erewrite lookup_ha_rows; [done| |done|]; by rewrite Hbars.
Qed.

Lemma smoothed_step df out (i : nat) (p r : HA F) :
  calculate df = Some out ->
  smoothed out !! i = Some p -> smoothed out !! S i = Some r ->
  ha_open r = ndiv (nadd (ha_open p) (ha_close p)) (of_int 2).
Proof.
  intros Hcalc Hp Hr.
  destruct (bars df) as [|b0 bs] eqn:Hbars.
  { unfold calculate in Hcalc.
    rewrite (proj2 (empty_true df) Hbars) in Hcalc.
    injection Hcalc as <-. destruct df as [rows|rows]; [done|].
    simpl in Hbars. apply fmap_nil_inv in Hbars. by subst. }
  destruct (calculate_rows df b0 bs Hbars)
    as (opens & Hlen & _ & Hrec & Hout).
  rewrite Hcalc in Hout. injection Hout as ->.
  simpl in Hp, Hr. rewrite list_lookup_fmap in Hp, Hr.
  assert (length (ha_rows (bars df) opens (ha_close_of <$> bars df))
          = length (bars df)) as Hrows
    by (apply length_ha_rows; [done|by rewrite length_fmap]).
  assert (S i < length (bars df))%nat as Hi.
  { rewrite <- Hrows. pose proof Hr as Hr'.
    apply fmap_Some in Hr' as (x & Hx & _). by eapply lookup_lt_Some. }
  destruct (lookup_lt_is_Some_2 (bars df) i) as [bi Hbi]; [lia|].
  destruct (lookup_lt_is_Some_2 (bars df) (S i)) as [bj Hbj]; [lia|].
  destruct (lookup_lt_is_Some_2 opens i) as [oi Hoi]; [unfold len in *; lia|].
  destruct (lookup_lt_is_Some_2 opens (S i)) as [oj Hoj];
    [unfold len in *; lia|].
  assert ((ha_close_of <$> bars df) !! i = Some (ha_close_of bi)) as Hci
    by by rewrite list_lookup_fmap, Hbi.
  assert ((ha_close_of <$> bars df) !! S i = Some (ha_close_of bj)) as Hcj
    by by rewrite list_lookup_fmap, Hbj.
  rewrite (lookup_ha_rows _ _ _ _ _ _ _ Hbi Hoi Hci) in Hp.
  rewrite (lookup_ha_rows _ _ _ _ _ _ _ Hbj Hoj Hcj) in Hr.
  injection Hp as <-. injection Hr as <-. simpl.
  specialize (Hrec i oi _ Hi Hoi Hci). congruence.
Qed.

End CandleFacts.

(** ** Candles and change percent in exact arithmetic *)

Section ExactFacts.
Implicit Types (df out : DataFrame Q) (b : Bar Q) (r p : HA Q).

Lemma Qgt_bool_iff (x y : Q) : Qgt_bool x y = true <-> (y < x)%Q.
Proof.
  unfold Qgt_bool. rewrite negb_true_iff.
  split.
  - intros Hle. apply Qnot_le_lt. intros Hxy.
    apply Qle_bool_iff in Hxy. congruence.
  - intros Hlt. destruct (Qle_bool x y) eqn:Hle; [|done].
    apply Qle_bool_iff in Hle. lra.
Qed.

Lemma mean4_above (o h l c : Q) :
  (o < (o + h + l + c) * (1 # 4) <-> 3 * o < h + l + c)%Q.
Proof. split; intros; lra. Qed.

Lemma mean4_within (o h l c : Q) :
  (l <= o <= h -> l <= c <= h -> l <= (o + h + l + c) * (1 # 4) <= h)%Q.
Proof. intros; lra. Qed.

Lemma mean2_within (x y : Q) :
  (Qmin x y <= (x + y) * (1 # 2) <= Qmax x y)%Q.
Proof.
  destruct (Q.min_spec x y) as [[? ->]|[? ->]],
    (Q.max_spec x y) as [[? ->]|[? ->]]; lra.
Qed.

Lemma ha_close_of_Q b :
  (ha_close_of b == (open b + high b + low b + close b) * (1 # 4))%Q.
Proof. reflexivity. Qed.




Lemma pct_sign (last prev : Q) :
  (0 < prev ->
   (0 < (last - prev) / prev * 100 <-> prev < last)
   /\ ((last - prev) / prev * 100 == 0 <-> last == prev)
   /\ ((last - prev) / prev * 100 < 0 <-> last < prev))%Q.
Proof.
  intros Hprev. unfold Qdiv.
  pose proof (Qinv_lt_0_compat prev Hprev) as Hk.
  set (k := (/ prev)%Q) in *. clearbody k.
  repeat split; intros; nra.
Qed.


End ExactFacts.

(** ** Market hours *)

Section MarketHours.
Implicit Types (a b now : Datetime).

(** On one day, datetimes compare as their microseconds since midnight. *)
Lemma dt_le_same_day a b :
  Datetime_valid a -> Datetime_valid b -> dt_ordinal a = dt_ordinal b ->
  dt_le a b = true <-> us_of_day a <= us_of_day b.
Proof.
  intros (_ & Hh & Hm & Hs & Hu) (_ & Hh' & Hm' & Hs' & Hu') Hday.
  unfold dt_le, dt_fields, us_of_day. cbn [lex_le]. rewrite Hday.
  repeat match goal with
         | |- context [?x <? ?y] => destruct (Z.ltb_spec x y)
         end; split; intros; try done; try lia.
Qed.

Lemma replace_time_valid now (h m : Z) :
  Datetime_valid now -> 0 <= h < 24 -> 0 <= m < 60 ->
  Datetime_valid (replace_time now h m).
Proof. intros (Hd & _) Hh Hm. repeat split; cbn; lia. Qed.

(** X15.  The market is open exactly from Monday to Friday between
    09:30:00 and 16:00:00, both ends included and to the microsecond. *)
Theorem market_open_iff now :
  Datetime_valid now ->
  _is_market_open now = true
  <-> weekday now < 5
      /\ 34200000000 <= us_of_day now <= 57600000000.
Proof.
  intros Hnow. unfold _is_market_open. cbv zeta.
  pose proof (dt_le_same_day (replace_time now 9 30) now
                (replace_time_valid now 9 30 Hnow ltac:(lia) ltac:(lia))
                Hnow eq_refl) as Hopen.
  pose proof (dt_le_same_day now (replace_time now 16 0) Hnow
                (replace_time_valid now 16 0 Hnow ltac:(lia) ltac:(lia))
                eq_refl) as Hclose.
  change (us_of_day (replace_time now 9 30)) with 34200000000 in Hopen.
  change (us_of_day (replace_time now 16 0)) with 57600000000 in Hclose.
  destruct (Z.leb_spec 5 (weekday now)).
  - split; [done|lia].
  - rewrite andb_true_iff, Hopen, Hclose. lia.
Qed.

(** X16.  For a timeframe of 0 to 869 minutes the first candle closes on
    the day of the clock, that many minutes after 09:30:00; and on a
    weekday that time is within market hours exactly for a timeframe of
    390 minutes at most. *)
Theorem first_candle_time now (timeframe : Z) :
  Datetime_valid now -> 0 <= timeframe < 870 ->
  exists t,
    _get_first_candle_time now timeframe = Some t
    /\ Datetime_valid t
    /\ dt_ordinal t = dt_ordinal now
    /\ us_of_day t = 34200000000 + timeframe * 60000000
    /\ (_is_market_open t = true <-> weekday now < 5 /\ timeframe <= 390).
Proof.
  intros Hnow Htf. pose proof Hnow as (Hday & _).
  unfold _get_first_candle_time, add_minutes. cbv zeta.
  change (us_of_day (replace_time now 9 30)) with 34200000000.
  change (dt_ordinal (replace_time now 9 30)) with (dt_ordinal now).
  set (total := 34200000000 + timeframe * 60 * 1000000).
  assert (0 <= total < 86400000000) as Htotal by (unfold total; lia).
  assert (timeframe * 60 / 86400 = 0) as -> by (apply Z.div_small; lia).
  rewrite (Z.div_small total), (Z.mod_small total), Z.add_0_r by done.
  cbn [orb Z.ltb Z.compare].
  destruct (Z.ltb_spec 0 (dt_ordinal now)); [|lia].
  destruct (Z.leb_spec (dt_ordinal now) 3652059); [|lia]. cbn [andb].
  eexists. split; [done|].
  set (seconds := total / 1000000).
  assert (total = seconds * 1000000 /\ total mod 1000000 = 0
          /\ seconds = 34200 + timeframe * 60) as (Htot & Hus & Hsec).
  { unfold seconds, total.
    replace (34200000000 + timeframe * 60 * 1000000)
      with ((34200 + timeframe * 60) * 1000000) by lia.
    rewrite Z.div_mul, Z.mod_mul by done. lia. }
  assert (Datetime_valid
            {| dt_ordinal := dt_ordinal now; dt_hour := seconds / 3600;
               dt_minute := seconds mod 3600 / 60;
               dt_second := seconds mod 60;
               dt_microsecond := total mod 1000000 |}) as Hvalid.
  { unfold Datetime_valid. cbn. rewrite Hus.
    pose proof (Z.div_mod seconds 3600 ltac:(lia)).
    pose proof (Z.mod_pos_bound seconds 3600 ltac:(lia)).
    pose proof (Z.div_mod (seconds mod 3600) 60 ltac:(lia)).
    pose proof (Z.mod_pos_bound (seconds mod 3600) 60 ltac:(lia)).
    pose proof (Z.mod_pos_bound seconds 60 ltac:(lia)).
    assert (0 <= seconds / 3600 < 24)
      by (split; [apply Z.div_pos; lia|apply Z.div_lt_upper_bound; lia]).
    assert (0 <= seconds mod 3600 / 60 < 60)
      by (split; [apply Z.div_pos; lia|apply Z.div_lt_upper_bound; lia]).
    lia. }
  assert (us_of_day
            {| dt_ordinal := dt_ordinal now; dt_hour := seconds / 3600;
               dt_minute := seconds mod 3600 / 60;
               dt_second := seconds mod 60;
               dt_microsecond := total mod 1000000 |}
          = 34200000000 + timeframe * 60000000) as Hus_of_day.
  { unfold us_of_day. cbn. rewrite Hus.
    pose proof (Z.div_mod seconds 3600 ltac:(lia)).
    pose proof (Z.div_mod (seconds mod 3600) 60 ltac:(lia)).
    assert (seconds mod 3600 mod 60 = seconds mod 60) as Hmm.
    { apply Z.mod_mod_divide. by exists 60. }
    lia. }
  split; [done|]. split; [done|]. split; [done|].
  pose proof (dt_le_same_day (replace_time _ 9 30) _
                (replace_time_valid _ 9 30 Hvalid ltac:(lia) ltac:(lia))
                Hvalid eq_refl) as Hopen.
  pose proof (dt_le_same_day _ (replace_time _ 16 0) Hvalid
                (replace_time_valid _ 16 0 Hvalid ltac:(lia) ltac:(lia))
                eq_refl) as Hclose.
  rewrite Hus_of_day in Hopen, Hclose.
  unfold _is_market_open. cbv zeta.
  change (weekday {| dt_ordinal := dt_ordinal now; dt_hour := _;
                     dt_minute := _; dt_second := _; dt_microsecond := _ |})
    with (weekday now).
  destruct (Z.leb_spec 5 (weekday now)).
  - split; [done|lia].
  - rewrite andb_true_iff, Hopen, Hclose.
    change (us_of_day (replace_time _ 9 30)) with 34200000000.
    change (us_of_day (replace_time _ 16 0)) with 57600000000. lia.
Qed.

End MarketHours.

(** * Settings: validation, the settings file, the subscription filters *)

Section SettingsFacts.


Context {F : Type} `{Number F}.


(** X19 ([load_saved_settings]): a file loads exactly when its exchange
    entry, BOTH if there is none, is the name of a member of [Exchange];
    the settings loaded have that exchange, and for each other entry the
    value on file or, if the file lacks it, the default of
    [ScannerSettings]. *)
Theorem settings_load_defaults (data : SettingsData F) :
  match load_saved_settings (Some data) with
  | Some st =>
      exchange_value (exchange st)
        = default (exchange_value (exchange default_settings))
            (d_exchange data)
      /\ min_price st
         = default (min_price default_settings) (d_min_price data)
      /\ max_price st
         = default (max_price default_settings) (d_max_price data)
      /\ min_market_cap st
         = default (min_market_cap default_settings)
             (d_min_market_cap data)
      /\ max_market_cap st
         = default (max_market_cap default_settings)
             (d_max_market_cap data)
      /\ min_volume st
         = default (min_volume default_settings) (d_min_volume data)
      /\ timeframe_minutes st
         = default (timeframe_minutes default_settings)
             (d_timeframe_minutes data)
      /\ detect_ha_candle st
         = default (detect_ha_candle default_settings)
             (d_detect_ha_candle data)
      /\ detect_normal_candle st
         = default (detect_normal_candle default_settings)
             (d_detect_normal_candle data)
  | None =>
      default "BOTH" (d_exchange data) ∉ ["NASDAQ"; "NYSE"; "BOTH"]
  end.
Proof.
  unfold load_saved_settings, exchange_of_name.
  change (exchange_value (exchange default_settings)) with "BOTH".
  destruct (String.eqb_spec (default "BOTH" (d_exchange data)) "NASDAQ")
    as [E1|Hn1]; [by rewrite E1|].
  destruct (String.eqb_spec (default "BOTH" (d_exchange data)) "NYSE")
    as [E2|Hn2]; [by rewrite E2|].
  destruct (String.eqb_spec (default "BOTH" (d_exchange data)) "BOTH")
    as [E3|Hn3]; [by rewrite E3|].
  rewrite !elem_of_cons, elem_of_nil. tauto.
Qed.

End SettingsFacts.

Section FilterFacts.
Variable str_float : float -> string.

(** X20 ([_get_scanner_filters]): the filters that are built carry their
    tags in the order priceAbove, priceBelow, marketCapAbove,
    marketCapBelow, volumeAbove, none of them twice; the volume filter is
    there exactly for a positive minimum volume, the lower bounds exactly
    for a positive minimum, the upper bounds exactly for a maximum below
    infinity. *)
Theorem scanner_filters_tags (self : IBKRScanner float)
    (filters : list TagValue) :
  _get_scanner_filters str_float self = Some filters ->
  sublist (tag <$> filters) scanner_tags
  /\ ("priceAbove" ∈ tag <$> filters
      <-> PrimFloat.ltb 0 (min_price (settings self)) = true)
  /\ ("priceBelow" ∈ tag <$> filters
      <-> PrimFloat.ltb (max_price (settings self)) infinity = true)
  /\ ("marketCapAbove" ∈ tag <$> filters
      <-> PrimFloat.ltb 0 (min_market_cap (settings self)) = true)
  /\ ("marketCapBelow" ∈ tag <$> filters
      <-> PrimFloat.ltb (max_market_cap (settings self)) infinity = true)
  /\ ("volumeAbove" ∈ tag <$> filters <-> 0 < min_volume (settings self)).
Proof.
  unfold _get_scanner_filters, scanner_tags.
  rewrite <- (Z.ltb_lt 0).
  destruct (PrimFloat.ltb 0 (min_price (settings self)));
    destruct (PrimFloat.ltb (max_price (settings self)) infinity);
    destruct (PrimFloat.ltb 0 (min_market_cap (settings self)));
    destruct (PrimFloat.ltb (max_market_cap (settings self)) infinity);
    destruct (0 <? min_volume (settings self));
    destruct (int_of_float (min_market_cap (settings self) * 1e9));
    destruct (int_of_float (max_market_cap (settings self) * 1e9));
    simpl; intros [= <-]; simpl;
    (split;
     [repeat first [apply sublist_nil | apply sublist_skip
                   | apply sublist_cons]
     |repeat split; try done;
      try (intros Hin; apply list_elem_of_In in Hin; simpl in Hin;
           intuition discriminate);
      try (intros _; apply list_elem_of_In; simpl; tauto)]).
Qed.

End FilterFacts.

(** * The scanner between scans: statistics and changed settings *)

Section SessionFacts.
Context {F : Type} `{Number F}.
Variable str_float : F -> string.
Variable ib : Upstream F.
Variable now : DateTime.

Implicit Types self : IBKRScanner F.

Lemma scan_stock_signals self contract result :
  _scan_stock str_float ib now self contract = Some result ->
  let ha := ScanResult.ha_bullish result in
  let normal := ScanResult.normal_bullish result in
  match detect_ha_candle (settings self),
        detect_normal_candle (settings self) with
  | true, true => ha || normal = true
  | true, false => ha = true
  | false, true => ha = false /\ normal = true
  | false, false => ha = false
  end.
Proof.
  intros Hscan.
  destruct (scan_stock_Some _ _ _ _ _ _ Hscan)
    as (hb & nb & v & cp & lp & _ & Han & _ & Hmet & _ & _ & -> & -> & _).
  rewrite any_condition_met_table in Hmet.
  pose proof (analyze_ha_off _ _ _ _ _ _ Han) as Hoff.
  destruct (detect_ha_candle (settings self)),
    (detect_normal_candle (settings self)); auto.
Qed.

Lemma signal_counts_bounds (rs : gmap string (ScanResult F)) :
  let ha_count := (signal_counts rs).1 in
  let normal_count := (signal_counts rs).2 in
  (ha_count <= size rs)%nat
  /\ (normal_count <= size rs)%nat
  /\ (map_Forall (fun _ r => ScanResult.ha_bullish r
                             || ScanResult.normal_bullish r = true) rs ->
      (size rs <= ha_count + normal_count)%nat)
  /\ (map_Forall (fun _ r => ScanResult.ha_bullish r = true) rs ->
      ha_count = size rs)
  /\ (map_Forall (fun _ r => ScanResult.normal_bullish r = true) rs ->
      normal_count = size rs)
  /\ (map_Forall (fun _ r => ScanResult.ha_bullish r = false) rs ->
      ha_count = 0%nat).
Proof.
  cbv zeta. unfold signal_counts.
  apply (map_fold_weak_ind
           (fun (counts : nat * nat) (m : gmap string (ScanResult F)) =>
              (counts.1 <= size m)%nat
              /\ (counts.2 <= size m)%nat
              /\ (map_Forall (fun _ r => ScanResult.ha_bullish r
                                        || ScanResult.normal_bullish r
                                        = true) m ->
                  (size m <= counts.1 + counts.2)%nat)
              /\ (map_Forall (fun _ r => ScanResult.ha_bullish r = true) m ->
                  counts.1 = size m)
              /\ (map_Forall (fun _ r => ScanResult.normal_bullish r = true)
                    m -> counts.2 = size m)
              /\ (map_Forall (fun _ r => ScanResult.ha_bullish r = false) m ->
                  counts.1 = 0%nat))).
  - rewrite map_size_empty. cbn. repeat split; auto.
  - intros s r m counts Hfresh (IH1 & IH2 & IH3 & IH4 & IH5 & IH6).
    rewrite map_size_insert_None by done.
    rewrite !map_Forall_insert by done. cbn [fst snd].
    destruct (ScanResult.ha_bullish r), (ScanResult.normal_bullish r);
      cbn; repeat split; try lia;
      intros [Hr Hm]; try discriminate;
      try (specialize (IH3 Hm)); try (specialize (IH4 Hm));
      try (specialize (IH5 Hm)); try (specialize (IH6 Hm)); lia.
Qed.

(** X21.  The statistics that the results table shows for the dict of a
    scan: neither count exceeds the number of stocks found; with both
    detections on the two counts add up to that number or more, with only
    one on the count of that signal is that number, and with Heikin Ashi
    detection off the Heikin Ashi count is 0. *)
Theorem table_statistics self :
  let rs := (run_scan str_float ib now self).1.1 in
  let ha_count := (signal_counts rs).1 in
  let normal_count := (signal_counts rs).2 in
  (ha_count <= size rs)%nat
  /\ (normal_count <= size rs)%nat
  /\ match detect_ha_candle (settings self),
           detect_normal_candle (settings self) with
     | true, true => (size rs <= ha_count + normal_count)%nat
     | true, false => ha_count = size rs
     | false, true => ha_count = 0%nat /\ normal_count = size rs
     | false, false => ha_count = 0%nat
     end.
Proof.
  cbv zeta.
  destruct (signal_counts_bounds (run_scan str_float ib now self).1.1)
    as (H1 & H2 & H3 & H4 & H5 & H6).
  split; [done|]. split; [done|].
  assert (Hsig : forall s r,
             (run_scan str_float ib now self).1.1 !! s = Some r ->
             let ha := ScanResult.ha_bullish r in
             let normal := ScanResult.normal_bullish r in
             match detect_ha_candle (settings self),
                   detect_normal_candle (settings self) with
             | true, true => ha || normal = true
             | true, false => ha = true
             | false, true => ha = false /\ normal = true
             | false, false => ha = false
             end).
  { intros s r Hentry.
    destruct (live_set_entry _ _ _ _ _ _ Hentry) as [_ Hscan].
    by apply scan_stock_signals in Hscan. }
  destruct (detect_ha_candle (settings self)),
    (detect_normal_candle (settings self)).
  - apply H3. intros s r Hentry. exact (Hsig s r Hentry).
  - apply H4. intros s r Hentry. exact (Hsig s r Hentry).
  - split.
    + apply H6. intros s r Hentry. exact (proj1 (Hsig s r Hentry)).
    + apply H5. intros s r Hentry. exact (proj2 (Hsig s r Hentry)).
  - apply H6. intros s r Hentry. exact (Hsig s r Hentry).
Qed.

(** X22.  A run is filed under the timeframe in force at the scan that
    archives it: the first scan after [update_settings] appends the live
    set of before to the history, stamped with the time of that scan and
    tagged with the timeframe of the new settings. *)
Theorem archive_tag_after_update (st : ScannerSettings F) self :
  connected self = true ->
  results self <> ∅ ->
  get_previous_runs
    (run_scan str_float ib now (update_settings st self)).1.2
  = get_previous_runs self
    ++ [ {| timestamp := now;
            parameters := "TF:" +:+ pretty (timeframe_minutes st) +:+ "m";
            run_results := results self |} ].
Proof.
  intros Hconn Hlive. unfold get_previous_runs.
  destruct (run_scan_connected_fields str_float ib now
              (update_settings st self) Hconn)
    as (_ & _ & _ & _ & _ & _ & _ & ->).
  unfold archive. cbn [update_settings results settings scan_history].
  destruct (size (results self) =? 0)%nat eqn:Hsize; [|done].
  apply Nat.eqb_eq, map_size_empty_iff in Hsize. done.
Qed.

End SessionFacts.

(** * The further theorems at work *)

(** One stock in the universe, that qualifies. *)
Lemma live_set_lookup_witness :
  (run_scan no_repr (tws_one two_bars_f 7.6%float) day1 normal_only).1.1
    !! "AAA"
  = if decide (AAA ∈ _fetch_stock_universe (tws_one two_bars_f 7.6%float)
                       normal_only)
    then _scan_stock no_repr (tws_one two_bars_f 7.6%float) day1 normal_only
           AAA
    else None.
Proof.
  apply (live_set_lookup no_repr (tws_one two_bars_f 7.6%float) day1
           normal_only "AAA").
  reflexivity.
Defined.

(** The scanner request raises while a stock is live. *)
Lemma failed_universe_clears_live_set_witness :
  (run_scan no_repr tws_no_scanner day1 normal_only_live).1.1 = ∅
  /\ results (run_scan no_repr tws_no_scanner day1 normal_only_live).1.2 = ∅
  /\ scan_history (run_scan no_repr tws_no_scanner day1 normal_only_live).1.2
     = archive day1 normal_only_live.
Proof.
  apply (failed_universe_clears_live_set no_repr tws_no_scanner day1
           normal_only_live).
  - reflexivity.
  - left. reflexivity.
Defined.

(** The market data request raises: the last bar closes at 8. *)
Lemma quote_fallback_witness :
  exists result,
    _scan_stock no_repr tws_no_quote day1 normal_only AAA = Some result
    /\ ScanResult.last_price result = 8%float
    /\ ScanResult.bid result = 0%float
    /\ ScanResult.ask result = 0%float
    /\ ScanResult.volume result = 0%float.
Proof.
  eexists. split; [vm_compute; reflexivity|].
  refine (quote_fallback no_repr tws_no_quote day1 normal_only AAA _
            [bar_at 1 9.5 10 9.5 10 200000]%float
            (bar_at 1 9 9 8 8 1000)%float _ _).
  - vm_compute. reflexivity.
  - reflexivity.
Defined.

(** The same first bar, followed by another bar or by none, and two
    last trades. *)
Lemma first_candle_settles_witness :
  match _scan_stock no_repr (tws_one two_bars_f 7.6%float) day1 normal_only
          AAA,
        _scan_stock no_repr (tws_one first_bar_only 3%float) day1 normal_only
          AAA with
  | Some r, Some r' =>
      ScanResult.ha_bullish r = ScanResult.ha_bullish r'
      /\ ScanResult.normal_bullish r = ScanResult.normal_bullish r'
      /\ ScanResult.first_candle_volume r = ScanResult.first_candle_volume r'
  | None, None => True
  | _, _ => False
  end.
Proof.
  apply (first_candle_settles no_repr (tws_one two_bars_f 7.6%float) day1
           (tws_one first_bar_only 3%float) normal_only AAA
           (bar_at 1 9.5 10 9.5 10 200000)%float
           [bar_at 1 9 9 8 8 1000]%float []).
  - reflexivity.
  - reflexivity.
Defined.

(** A frame of two rows. *)
Lemma calculate_again_witness :
  exists out,
    calculate (OHLCV two_bars_q) = Some out /\ calculate out = Some out.
Proof.
  eexists. split; [vm_compute; reflexivity|].
  apply calculate_again with (df := OHLCV two_bars_q).
  vm_compute. reflexivity.
Defined.

(** Index 2 of a frame of two rows. *)
Lemma is_bullish_out_of_range_witness :
  is_bullish two_rows_ha 2 = None.
Proof.
  apply (is_bullish_out_of_range two_rows_ha 2).
  - discriminate.
  - reflexivity.
  - right. vm_compute. discriminate.
Defined.





(** A Tuesday, at ten to ten and at half past four in the afternoon. *)
Lemma market_open_iff_witness :
  _is_market_open tuesday_morning = true
  /\ ~ (weekday tuesday_evening < 5
        /\ 34200000000 <= us_of_day tuesday_evening <= 57600000000).
Proof.
  split.
  - apply (market_open_iff tuesday_morning).
    + vm_compute. intuition discriminate.
    + vm_compute. intuition discriminate.
  - intros Hopen. apply (market_open_iff tuesday_evening) in Hopen.
    + vm_compute in Hopen. discriminate.
    + vm_compute. intuition discriminate.
Defined.

(** A timeframe of two minutes on a Tuesday. *)
Lemma first_candle_time_witness :
  exists t,
    _get_first_candle_time tuesday_morning 2 = Some t
    /\ Datetime_valid t
    /\ dt_ordinal t = dt_ordinal tuesday_morning
    /\ us_of_day t = 34200000000 + 2 * 60000000
    /\ (_is_market_open t = true
        <-> weekday tuesday_morning < 5 /\ 2 <= 390).
Proof.
  apply (first_candle_time tuesday_morning 2).
  - vm_compute. intuition discriminate.
  - lia.
Defined.

(** The default settings: no lower bound on price or market cap. *)
Lemma scanner_filters_tags_witness :
  exists filters,
    _get_scanner_filters no_repr both_signals = Some filters
    /\ sublist (tag <$> filters) scanner_tags
    /\ "volumeAbove" ∈ tag <$> filters.
Proof.
  eexists. split; [vm_compute; reflexivity|].
  destruct (scanner_filters_tags no_repr both_signals _ eq_refl)
    as (Hsub & _ & _ & _ & _ & Hvol).
  split; [exact Hsub|]. apply Hvol. reflexivity.
Defined.

(** A live set with an entry, and new settings of five minutes. *)
Lemma archive_tag_after_update_witness :
  get_previous_runs
    (run_scan no_repr (tws_one two_bars_f 7.6%float) day1_later
       (update_settings five_minutes normal_only_live)).1.2
  = get_previous_runs normal_only_live
    ++ [ {| timestamp := day1_later;
            parameters := "TF:" +:+ pretty 5 +:+ "m";
            run_results := old_live |} ].
Proof.
  apply (archive_tag_after_update no_repr (tws_one two_bars_f 7.6%float)
           day1_later five_minutes normal_only_live).
  - reflexivity.
  - apply map_non_empty_singleton.
Defined.
